(** * LupaAlGiro: payment extraction from the ADRES portal

    A shallow embedding of [LupaAlGiro_Clientes.py].  Text is a [string]
    whose characters are code points below 256; a raw table row is a list of
    cell texts; a pandas DataFrame is the list of its rows.  The browser is an
    explicit state threaded through a small state-and-exception monad, and
    the portal is an oracle that says how each Selenium call ends.  The
    reading of an amount follows the C parser of pandas; a number is an
    integer that a float64 holds exactly, or else is left as its text. *)

From Stdlib Require Import String Ascii List ZArith Lia Bool Arith.
From Stdlib Require Import SpecFloat.
Import ListNotations.
Open Scope string_scope.
Open Scope list_scope.
Open Scope nat_scope.

(** A list or an option that is expected to hold numbers takes an integer
    literal as a number. *)
Arguments cons {A}%_type_scope & a l%_list_scope.
Arguments Some {A}%_type_scope & a.

(** ** Python's string primitives *)

Module Py.

Definition codigo (c : ascii) : nat := nat_of_ascii c.

(** [str.isdigit] on one character: the decimal digits and, below 256,
    the superscripts ¹ ² ³ (code points 185, 178, 179). *)
Definition isdigit (c : ascii) : bool :=
  let n := codigo c in
  ((48 <=? n) && (n <=? 57)) || (n =? 178) || (n =? 179) || (n =? 185).

(** [str.isspace] on one character: what [str.strip()] removes. *)
Definition isspace (c : ascii) : bool :=
  let n := codigo c in
  ((9 <=? n) && (n <=? 13)) || ((28 <=? n) && (n <=? 32))
  || (n =? 133) || (n =? 160).

Fixpoint lstrip (s : string) : string :=
  match s with
  | String c s' => if isspace c then lstrip s' else s
  | EmptyString => EmptyString
  end.

Fixpoint rstrip (s : string) : string :=
  match s with
  | String c s' =>
      match rstrip s' with
      | EmptyString => if isspace c then EmptyString else String c EmptyString
      | r => String c r
      end
  | EmptyString => EmptyString
  end.

(** [s.strip()] *)
Definition strip (s : string) : string := rstrip (lstrip s).

(** [any(p(char) for char in s)] *)
Fixpoint any (p : ascii -> bool) (s : string) : bool :=
  match s with
  | String c s' => p c || any p s'
  | EmptyString => false
  end.

(** [c in s] for a single character [c] *)
Definition has_char (c : ascii) (s : string) : bool := any (Ascii.eqb c) s.

(** [sub in s] *)
Fixpoint contains (sub s : string) : bool :=
  prefix sub s ||
  match s with
  | String _ s' => contains sub s'
  | EmptyString => false
  end.

(** [s.split(sep, maxsplit)] for a one-character separator *)
Fixpoint split (sep : ascii) (maxsplit : nat) (s : string) : list string :=
  match s with
  | EmptyString => [EmptyString]
  | String c s' =>
      match maxsplit with
      | O => [s]
      | S m =>
          if Ascii.eqb c sep then EmptyString :: split sep m s'
          else match split sep maxsplit s' with
               | p :: ps => String c p :: ps
               | [] => [String c EmptyString]
               end
      end
  end.

(** [re.sub(r'[\$,\.]', '', s)]: every '$', ',' and '.' is removed. *)
Definition es_simbolo (c : ascii) : bool :=
  Ascii.eqb c "$" || Ascii.eqb c "," || Ascii.eqb c ".".

Fixpoint quitar_simbolos (s : string) : string :=
  match s with
  | String c s' =>
      if es_simbolo c then quitar_simbolos s' else String c (quitar_simbolos s')
  | EmptyString => EmptyString
  end.

(** A value as Python sees it when it may raise: [Excepcion] stands for any
    exception that [except Exception] (or a bare [except]) catches. *)
Inductive resultado (A : Type) : Type :=
| Ok (a : A)
| Excepcion.
Arguments Ok {A} a.
Arguments Excepcion {A}.

Definition ligar {A B} (r : resultado A) (k : A -> resultado B) : resultado B :=
  match r with
  | Ok a => k a
  | Excepcion => Excepcion
  end.

(** [l[i]] for [i >= 0]: an [IndexError] when out of range. *)
Definition item {A} (l : list A) (i : nat) : resultado A :=
  match nth_error l i with
  | Some a => Ok a
  | None => Excepcion
  end.

End Py.

Notation "x <- e ;; k" := (Py.ligar e (fun x => k))
  (at level 61, e at next level, right associativity).

(** ** pandas *)

(** A number of the column Valor once it is converted.

    [Entero z] is the number [z], of magnitude at most 2^53: pandas holds it
    as the int64 [z] or, when the column is float64 because another row is
    not an integer, as the float64 equal to [z]; either way its value is [z].

    [Flotante texto] is the number that pandas holds for [texto] when that
    is a floating-point matter: a literal with an exponent or a decimal
    point, an infinity, or an integer beyond 2^53, which is kept exact or
    rounded to a float64 according to the other rows of the column.  Its
    value is not computed; the text is kept in its place. *)
Inductive numero : Type :=
| Entero (z : Z)
| Flotante (texto : string).
Coercion Entero : Z >-> numero.

Module Pd.

(** The white space the number parser skips around a literal. *)
Definition blanco (c : ascii) : bool :=
  let n := Py.codigo c in ((9 <=? n) && (n <=? 13)) || (n =? 32).

Fixpoint sin_blancos_izq (s : string) : string :=
  match s with
  | String c s' => if blanco c then sin_blancos_izq s' else s
  | EmptyString => EmptyString
  end.

Fixpoint sin_blancos_der (s : string) : string :=
  match s with
  | String c s' =>
      match sin_blancos_der s' with
      | EmptyString => if blanco c then EmptyString else String c EmptyString
      | r => String c r
      end
  | EmptyString => EmptyString
  end.

Definition cifra (c : ascii) : option Z :=
  let n := Py.codigo c in
  if (48 <=? n) && (n <=? 57) then Some (Z.of_nat (n - 48)) else None.

(** One or more decimal digits, read left to right. *)
Fixpoint cifras (acc : Z) (s : string) : option Z :=
  match s with
  | String c s' =>
      match cifra c with
      | Some d =>
          match s' with
          | EmptyString => Some (10 * acc + d)%Z
          | _ => cifras (10 * acc + d)%Z s'
          end
      | None => None
      end
  | EmptyString => None
  end.

(** *** The C parser that [pd.to_numeric] calls on a string

    pandas reads a string with its own [precise_xstrtod], reached through
    [to_double] and [floatify]; the three are followed here step by step,
    with the arguments pandas passes: '.' for the decimal point, 'E' for the
    exponent, no thousands separator, trailing white space skipped. *)

(** A C [double]: IEEE 754 binary64, with its rounding. *)
Definition double : Type := spec_float.
Definition of_Z (z : Z) : double := binary_normalize 53 1024 z 0 false.
Definition mul (x y : double) : double := SFmul 53 1024 x y.
Definition add (x y : double) : double := SFadd 53 1024 x y.

(** [x == HUGE_VAL || x == -HUGE_VAL] *)
Definition es_infinito (x : double) : bool :=
  match x with
  | S754_infinity _ => true
  | _ => false
  end.

(** A C [int]: 32 bits, wrapping around. *)
Definition int (z : Z) : Z := ((z + 2 ^ 31) mod 2 ^ 32 - 2 ^ 31)%Z.

(** A C string ends at its first NUL. *)
Fixpoint c_str (s : string) : string :=
  match s with
  | String c s' => if Py.codigo c =? 0 then EmptyString else String c (c_str s')
  | EmptyString => EmptyString
  end.

Definition max_digits : nat := 17.

(** The digits before the decimal point: the first seventeen go into
    [number], each of the others adds one to [exponent]. *)
Fixpoint digitos (p : string) (number : double) (num_digits : nat) (exponent : Z)
  : double * nat * Z * string :=
  match p with
  | String c p' =>
      match cifra c with
      | Some d =>
          if num_digits <? max_digits
          then digitos p' (add (mul number (of_Z 10)) (of_Z d))
                       (S num_digits) exponent
          else digitos p' number num_digits (exponent + 1)
      | None => (number, num_digits, exponent, p)
      end
  | EmptyString => (number, num_digits, exponent, p)
  end.

(** The digits after the decimal point, as long as [number] has room. *)
Fixpoint decimales (p : string) (number : double) (num_digits : nat)
    (num_decimals : Z) : double * nat * Z * string :=
  match p with
  | String c p' =>
      match cifra c with
      | Some d =>
          if num_digits <? max_digits
          then decimales p' (add (mul number (of_Z 10)) (of_Z d))
                         (S num_digits) (num_decimals + 1)
          else (number, num_digits, num_decimals, p)
      | None => (number, num_digits, num_decimals, p)
      end
  | EmptyString => (number, num_digits, num_decimals, p)
  end.

Fixpoint saltar_digitos (p : string) : string :=
  match p with
  | String c p' =>
      match cifra c with
      | Some _ => saltar_digitos p'
      | None => p
      end
  | EmptyString => p
  end.

(** The digits of the exponent, seventeen at most, into the C int [n]. *)
Fixpoint digitos_exponente (p : string) (n : Z) (num_digits : nat)
  : Z * nat * string :=
  match p with
  | String c p' =>
      match cifra c with
      | Some d =>
          if num_digits <? max_digits
          then digitos_exponente p' (int (int (n * 10) + d)) (S num_digits)
          else (n, num_digits, p)
      | None => (n, num_digits, p)
      end
  | EmptyString => (n, num_digits, p)
  end.

(** An optional sign: whether it is '-', and what follows it. *)
Definition signo (p : string) : bool * string :=
  match p with
  | String c p' =>
      if Ascii.eqb c "-" then (true, p')
      else if Ascii.eqb c "+" then (false, p')
      else (false, p)
  | EmptyString => (false, p)
  end.

(** What [precise_xstrtod] leaves besides the double: the error flag,
    whether the text may be an integer, and where the reading stopped. *)
Record lectura : Type := Lectura {
  error : bool;
  maybe_int : bool;
  endptr : string
}.

(** The double itself is followed only as far as the error flag needs it:
    the flag is set when the text has no digit, when the exponent is over
    308, and when scaling [number] up by the power of ten overflows.
    Scaling down, a division of a finite number, cannot overflow.  When no
    digit follows the 'e', the parser steps back by one character. *)
Definition precise_xstrtod (str : string) : lectura :=
  let '(negative, p) := signo (sin_blancos_izq str) in
  let '(number, num_digits, exponent, p) := digitos p (S754_zero false) 0 0 in
  let '(number, num_digits, exponent, p, maybe_int) :=
    match p with
    | String c p' =>
        if Ascii.eqb c "." then
          let '(number, num_digits, num_decimals, q) :=
            decimales p' number num_digits 0 in
          (number, num_digits, int (exponent - num_decimals),
           if max_digits <=? num_digits then saltar_digitos q else q,
           false)
        else (number, num_digits, exponent, p, true)
    | EmptyString => (number, num_digits, exponent, p, true)
    end in
  if num_digits =? 0 then Lectura true maybe_int p
  else
    let number := if negative : bool then SFopp number else number in
    let '(exponent, p, maybe_int) :=
      match p with
      | String c p' =>
          if Ascii.eqb c "e" || Ascii.eqb c "E" then
            let '(negative, q) := signo p' in
            let '(n, num_digits, q') := digitos_exponente q 0 0 in
            (if negative : bool then int (exponent - n) else int (exponent + n),
             if num_digits =? 0
             then (if String.eqb q p' then p else p')
             else q',
             false)
          else (exponent, p, maybe_int)
      | EmptyString => (exponent, p, maybe_int)
      end in
    let error :=
      if (308 <? exponent)%Z then true
      else if (0 <? exponent)%Z
           then es_infinito (mul number (of_Z (10 ^ exponent)))
           else false in
    Lectura error maybe_int (sin_blancos_izq p).

(** [to_double]: the text is a number when there is no error and nothing is
    left of it; the answer is then whether it may be an integer. *)
Definition to_double (item : string) : option bool :=
  let r := precise_xstrtod item in
  if negb (error r) && String.eqb (endptr r) "" then Some (maybe_int r)
  else None.

Definition tolower (c : ascii) : ascii :=
  let n := Py.codigo c in
  if (65 <=? n) && (n <=? 90) then ascii_of_nat (n + 32) else c.

Fixpoint minusculas (s : string) : string :=
  match s with
  | String c s' => String (tolower c) (minusculas s')
  | EmptyString => EmptyString
  end.

(** The spellings of an infinity that [floatify] takes, in any case. *)
Definition es_infinity (data : string) : bool :=
  existsb (String.eqb (minusculas data))
          ["inf"; "-inf"; "+inf"; "infinity"; "-infinity"; "+infinity"].

(** [floatify]: [Some maybe_int] when the string is read as a number,
    [None] for the parsing error. *)
Definition floatify (str : string) : option bool :=
  let data := c_str str in
  match to_double data with
  | Some maybe_int => Some maybe_int
  | None => if es_infinity data then Some false else None
  end.

(** [int(val)] on the texts that reach it: white space around, a sign,
    decimal digits. *)
Definition int_de (val : string) : option Z :=
  match sin_blancos_der (sin_blancos_izq val) with
  | String c r =>
      if Ascii.eqb c "+" then cifras 0 r
      else if Ascii.eqb c "-" then option_map Z.opp (cifras 0 r)
      else cifras 0 (String c r)
  | EmptyString => None
  end.

(** [pd.to_numeric(val, errors='coerce')] on one string.  [None] is NaN:
    the empty string, a parsing error, or an [int(val)] that raises. *)
Definition to_numeric (val : string) : option numero :=
  if String.eqb val "" then None
  else
    match floatify val with
    | Some true =>
        match int_de val with
        | Some as_int =>
            if (Z.abs as_int <=? 2 ^ 53)%Z then Some (Entero as_int)
            else Some (Flotante val)
        | None => None
        end
    | Some false => Some (Flotante val)
    | None => None
    end.

(** [pd.DataFrame(filas)] on a list of lists: every row is as wide as the
    widest one, the missing cells are [None]. *)
Definition ancho {A} (filas : list (list A)) : nat :=
  fold_right (fun f m => Nat.max (length f) m) 0 filas.

Definition rellenar {A} (n : nat) (f : list A) : list (option A) :=
  map Some f ++ repeat None (n - length f).

Definition DataFrame {A} (filas : list (list A)) : list (list (option A)) :=
  map (rellenar (ancho filas)) filas.

End Pd.

(** ** The Record Reconstructor: [limpiar_datos] *)

(** One reconstructed record; [V] is the type of [Valor]: the cell text while
    the rows are scanned, a [numero] once the column is converted. *)
Record registro (V : Type) : Type := Registro {
  NIT_IPS : string;
  Nombre_IPS : string;
  Fecha_Giro : string;
  Valor : V;
  Concepto : string;
  Entidad : string
}.
Arguments Registro {V} & NIT_IPS Nombre_IPS Fecha_Giro Valor Concepto Entidad.
Arguments NIT_IPS {V}.
Arguments Nombre_IPS {V}.
Arguments Fecha_Giro {V}.
Arguments Valor {V}.
Arguments Concepto {V}.
Arguments Entidad {V}.

Definition fila := list string.

(** [str(c)] for a DataFrame cell: the text itself, or "None" for a cell that
    the DataFrame constructor filled in. *)
Definition str (c : option string) : string :=
  match c with
  | Some s => s
  | None => "None"
  end.

(** [cols = [str(c).strip() for c in row if str(c).strip() != ""]] *)
Definition cols_de (row : list (option string)) : list string :=
  filter (fun s => negb (String.eqb s "")) (map (fun c => Py.strip (str c)) row).

(** ["NIT-" in cell] *)
Definition es_ancla (cell : string) : bool := Py.contains "NIT-" cell.

(** The negation of line 190: the value candidate holds a '$' or a digit. *)
Definition valor_aceptado (posible_valor : string) : bool :=
  negb (negb (Py.has_char "$" posible_valor) && negb (Py.any Py.isdigit posible_valor)).

(** What the body of the [try] does to the loop over the cells. *)
Inductive efecto : Type :=
| Continue                       (* [continue] on line 191 *)
| Agrega (r : registro string)   (* [append] then [break] *)
| Nada.                          (* the [if] on line 194 fails; next cell *)

(** Lines 189 to 203, every subscript being one that may raise. *)
Definition intento (cols : list string) (idx : nat) (cell : string)
  : Py.resultado efecto :=
  posible_valor <- Py.item cols (idx + 2) ;;
  if negb (Py.has_char "$" posible_valor) && negb (Py.any Py.isdigit posible_valor)
  then Py.Ok Continue
  else
    let partes := Py.split "-" 2 cell in
    if 3 <=? length partes then
      nit <- Py.item partes 1 ;;
      nombre <- Py.item partes 2 ;;
      fecha <- Py.item cols (idx + 1) ;;
      concepto <- (if idx + 3 <? length cols then Py.item cols (idx + 3)
                   else Py.Ok "N/A") ;;
      entidad <- (if idx + 4 <? length cols then Py.item cols (idx + 4)
                  else Py.Ok "N/A") ;;
      Py.Ok (Agrega (Registro nit nombre fecha posible_valor concepto entidad))
    else Py.Ok Nada.

(** One iteration of [for idx, cell in enumerate(cols)]: [Some r] when the
    iteration appends [r] and breaks, [None] when the loop goes on.  An
    exception inside the [try] is swallowed by the bare [except]. *)
Definition iteracion (cols : list string) (idx : nat) (cell : string)
  : option (registro string) :=
  if es_ancla cell && (idx + 2 <? length cols) then
    match intento cols idx cell with
    | Py.Ok (Agrega r) => Some r
    | Py.Ok Continue => None
    | Py.Ok Nada => None
    | Py.Excepcion => None
    end
  else None.

(** The loop over the cells, from position [idx] on; [resto] is what is left
    of [cols] to enumerate. *)
Fixpoint recorrer (cols : list string) (idx : nat) (resto : list string)
  : list (registro string) :=
  match resto with
  | [] => []
  | cell :: resto' =>
      match iteracion cols idx cell with
      | Some r => [r]
      | None => recorrer cols (S idx) resto'
      end
  end.

(** What one row adds to [registros_finales]. *)
Definition registros_de_cols (cols : list string) : list (registro string) :=
  recorrer cols 0 cols.

Definition registros_de_fila (row : list (option string)) : list (registro string) :=
  registros_de_cols (cols_de row).

(** Lines 211 to 214: the column [Valor] without its symbols, read as a
    number, and the rows where that gives NaN dropped.  Whether a row is
    dropped depends on its own text only; so does its number as a [numero],
    where what depends on the other rows is left in [Flotante]. *)
Definition normalizar_valor (v : string) : option numero :=
  Pd.to_numeric (Py.quitar_simbolos v).

Definition convertir (r : registro string) : option (registro numero) :=
  option_map
    (fun z => Registro (NIT_IPS r) (Nombre_IPS r) (Fecha_Giro r) z
                       (Concepto r) (Entidad r))
    (normalizar_valor (Valor r)).

Fixpoint convertir_y_descartar (df : list (registro string))
  : list (registro numero) :=
  match df with
  | [] => []
  | r :: df' =>
      match convertir r with
      | Some r' => r' :: convertir_y_descartar df'
      | None => convertir_y_descartar df'
      end
  end.

Definition registros_finales (extraccion_bruta : list fila) : list (registro string) :=
  flat_map registros_de_fila (Pd.DataFrame extraccion_bruta).

Definition limpiar_datos (extraccion_bruta : list fila)
  : list (registro numero) :=
  match extraccion_bruta with
  | [] => []
  | _ =>
      let df_final := registros_finales extraccion_bruta in
      match df_final with
      | [] => []
      | _ => convertir_y_descartar df_final
      end
  end.

(** *** The scan, said directly

    Two definitions that the properties of the scan are stated with. *)

(** The anchor at [idx] passes the guard of line 187, the gate of line 190
    and the arity check of line 194. *)
Definition califica (cols : list string) (idx : nat) : bool :=
  match nth_error cols idx, nth_error cols (idx + 2) with
  | Some cell, Some posible_valor =>
      es_ancla cell && valor_aceptado posible_valor
      && (3 <=? length (Py.split "-" 2 cell))
  | _, _ => false
  end.

(** The record that lines 195 to 202 build at [idx], subscripts read with a
    default. *)
Definition registro_en (cols : list string) (idx : nat) : registro string :=
  let partes := Py.split "-" 2 (nth idx cols "") in
  Registro (nth 1 partes "") (nth 2 partes "")
           (nth (idx + 1) cols "") (nth (idx + 2) cols "")
           (if idx + 3 <? length cols then nth (idx + 3) cols "" else "N/A")
           (if idx + 4 <? length cols then nth (idx + 4) cols "" else "N/A").

(** ** The browser session and the portal *)

(** What the program can observe or change of the Selenium driver. *)
Record navegador : Type := Navegador {
  abierta : bool;              (* the browser process is held *)
  en_iframe : bool;            (* the context is inside the report iframe *)
  consultados : list string    (* identifiers whose fetch was started *)
}.

Definition sin_navegador : navegador := Navegador false false [].

(** The steps of one fetch that call the driver or the parser. *)
Inductive paso : Type :=
| Navegacion      (* [driver.get(URL_ADRES)] *)
| Localizacion    (* [wait.until(...)] and [switch_to.frame] *)
| Inyeccion       (* [execute_script] *)
| Espera          (* [time.sleep] *)
| Analisis.       (* [BeautifulSoup] and the loop over the rows *)

Definition paso_eqb (p q : paso) : bool :=
  match p, q with
  | Navegacion, Navegacion | Localizacion, Localizacion
  | Inyeccion, Inyeccion | Espera, Espera | Analisis, Analisis => true
  | _, _ => false
  end.

(** How the outside world answers: each field says how one call ends. *)
Record portal : Type := Portal {
  arranca : bool;                      (* [webdriver.Chrome(options)] returns *)
  responde : bool;                     (* [driver.get("https://www.google.com")] returns *)
  falla_en : string -> option paso;    (* the step of this identifier's fetch that raises *)
  tabla : string -> list fila;         (* per [tr] of the page, the texts of its [td] *)
  restaura : string -> bool            (* [switch_to.default_content()] returns *)
}.

(** State and exceptions: a computation runs on a browser state and ends
    with a value or an exception, and the state it leaves. *)
Definition M (A : Type) : Type := navegador -> Py.resultado A * navegador.

Definition ret {A} (a : A) : M A := fun b => (Py.Ok a, b).

Definition bind {A B} (c : M A) (k : A -> M B) : M B :=
  fun b =>
    match c b with
    | (Py.Ok a, b') => k a b'
    | (Py.Excepcion, b') => (Py.Excepcion, b')
    end.

Notation "x <~ c ;; k" := (bind c (fun x => k))
  (at level 61, c at next level, right associativity).

(** [try: c  except Exception: h] *)
Definition try_except {A} (c h : M A) : M A :=
  fun b =>
    match c b with
    | (Py.Ok a, b') => (Py.Ok a, b')
    | (Py.Excepcion, b') => h b'
    end.

(** [try: c  finally: f]: [f] always runs, and an exception of [f] replaces
    whatever [c] returned or raised. *)
Definition try_finally {A} (c : M A) (f : M unit) : M A :=
  fun b =>
    match c b with
    | (r, b') =>
        match f b' with
        | (Py.Ok _, b'') => (r, b'')
        | (Py.Excepcion, b'') => (Py.Excepcion, b'')
        end
    end.

(** One call of a fetch step: it raises when the portal says so, and
    otherwise leaves the browser as [f] says. *)
Definition llamada (P : portal) (nit : string) (p : paso)
    (f : navegador -> navegador) : M unit :=
  fun b =>
    match falla_en P nit with
    | Some q => if paso_eqb p q then (Py.Excepcion, b) else (Py.Ok tt, f b)
    | None => (Py.Ok tt, f b)
    end.

Definition anotar (nit : string) (b : navegador) : navegador :=
  Navegador (abierta b) false (consultados b ++ [nit]).

Definition entrar_iframe (b : navegador) : navegador :=
  Navegador (abierta b) true (consultados b).

Definition salir_iframe (b : navegador) : navegador :=
  Navegador (abierta b) false (consultados b).

(** [driver.switch_to.default_content()] *)
Definition default_content (P : portal) (nit : string) : M unit :=
  fun b => if restaura P nit then (Py.Ok tt, salir_iframe b) else (Py.Excepcion, b).

(** ** The Report Fetcher: [extraer_datos_nit] *)

(** Lines 152 to 155: the rows with more than five cells. *)
Definition filas_extraidas (trs : list fila) : list fila :=
  filter (fun cells => 5 <? length cells) trs.

Definition extraer_datos_nit (P : portal) (nit : string) : M (list fila) :=
  try_finally
    (try_except
       (_ <~ (fun b => (Py.Ok tt, anotar nit b)) ;;
        _ <~ llamada P nit Navegacion (fun b => b) ;;
        _ <~ llamada P nit Localizacion entrar_iframe ;;
        _ <~ llamada P nit Inyeccion (fun b => b) ;;
        _ <~ llamada P nit Espera (fun b => b) ;;
        _ <~ llamada P nit Analisis (fun b => b) ;;
        ret (filas_extraidas (tabla P nit)))
       (ret []))
    (default_content P nit).

(** ** The Pipeline Driver: [main] *)

(** The identifiers to process, as listed in the script. *)
Definition NITS_PROCESAR : list string :=
  ["890303208"; "816001182"; "802010614"; "890307200"; "806007650"; "807002424";
   "800194798"; "890985122"; "830011670"; "860026123"; "892099160"; "811000620";
   "812005190"; "800095628"; "860514592"; "800052534"; "890941663"; "890901475";
   "890501070"; "800231604"; "817004260"; "800165262"; "891409291"; "800241602";
   "805007737"; "890324177"; "890901826"; "860006560"; "891408586"; "890500893";
   "801000713"; "890102768"; "802020334"; "17068260"; "892300678"; "806006237";
   "824000687"; "802000608"; "890107487"; "890208788"; "805027911"; "24289833";
   "860037950"; "811038014"; "811045769"; "900037353"; "900047874"; "16703018";
   "900098550"; "830023202"; "900112351"; "900149596"; "830110109"; "900273686";
   "830512218"; "900285194"; "900330656"; "900116494"; "900335780"; "900138858";
   "900368444"; "900474727"; "900236850"; "900563107"; "830500960"; "830020599";
   "890300513"; "66917463"; "900580962"; "900276658"; "13487059"; "900928616";
   "900699359"; "900774610"; "901196161"; "901002107"; "900099945"; "890922113";
   "860007336"; "860013570"; "800149695"; "890000381"; "828002423"; "901429936";
   "900067510"; "900352592"; "901300333"; "900419563"; "901212102"; "901565478";
   "900073223"; "830027158"; "901308243"; "900989962"; "901731685"; "891200235";
   "901256347"; "900432887"; "800130907"; "900277244"; "830129327"; "890331949";
   "900293923"; "811028445"; "800005727"; "900509068"; "900413914"; "830501223"].

(** [list(dict.fromkeys(l))]: the keys in the order they were first seen. *)
Definition fromkeys (l : list string) : list string :=
  fold_left
    (fun claves x => if existsb (String.eqb x) claves then claves else claves ++ [x])
    l [].

Definition configurar_driver (P : portal) : M unit :=
  fun b =>
    if arranca P then (Py.Ok tt, Navegador true false (consultados b))
    else (Py.Excepcion, b).

(** [driver.get("https://www.google.com")] *)
Definition prueba_driver (P : portal) : M unit :=
  fun b => if responde P then (Py.Ok tt, b) else (Py.Excepcion, b).

(** [driver.quit()] *)
Definition quit : M unit :=
  fun b => (Py.Ok tt, Navegador false false (consultados b)).

(** Lines 254 to 262: the loop over the identifiers, with the rows so far. *)
Fixpoint bucle (P : portal) (nits : list string) (EXTRACCION_BRUTA : list fila)
  : M (list fila) :=
  match nits with
  | [] => ret EXTRACCION_BRUTA
  | nit :: resto =>
      acumulado <~ try_except
                     (filas <~ extraer_datos_nit P nit ;;
                      ret (EXTRACCION_BRUTA ++ filas))
                     (ret EXTRACCION_BRUTA) ;;
      bucle P resto acumulado
  end.

(** How [main] ends when it returns. *)
Inductive salida : Type :=
| ErrorDriver                        (* the driver test failed: early return *)
| Exporta (df : list (registro numero))   (* the CSV file is written *)
| SinDatos.                          (* the message that nothing matched *)

Definition exportar (df_final : list (registro numero)) : salida :=
  match df_final with
  | [] => SinDatos
  | _ => Exporta df_final
  end.

Definition main (P : portal) (NITS : list string) : M salida :=
  let nits_unicos := fromkeys NITS in
  _ <~ configurar_driver P ;;
  probado <~ try_except (_ <~ prueba_driver P ;; ret true) (ret false) ;;
  if probado : bool then
    EXTRACCION_BRUTA <~ bucle P nits_unicos [] ;;
    _ <~ quit ;;
    ret (exportar (limpiar_datos EXTRACCION_BRUTA))
  else ret ErrorDriver.

(** ** Sample inputs *)

(** The row of the end-to-end scenario. *)
Definition fila_hospital : fila :=
  ["x"; "NIT-802010614-Hospital San Jose"; "15/01/2025"; "$5.000.000";
   "Anticipo"; "ADRES"].

(** Six cells in the table, three of them empty. *)
Definition fila_tres_celdas : fila :=
  [""; "NIT-1-A"; ""; "01/01/2025"; "$5"; ""].

Definition fila_dos_celdas : fila := ["NIT-1-A"; "$5"].

(** An anchor followed by text that is no amount. *)
Definition cols_nota : list string :=
  ["foo"; "NIT-123-ClinicName"; "note"; "bar"].

(** Three anchors: the first has no amount at +2, the other two have one. *)
Definition fila_varias_anclas : list (option string) :=
  map Some ["NIT-0-Z"; "x"; "y"; "NIT-1-A"; "02/01/2025"; "$1";
            "NIT-2-B"; "03/01/2025"; "$2"].

Definition cols_clinica : list string :=
  ["NIT-900123456-Clinica Central"; "15/01/2025"; "$10"].

Definition cols_sin_nombre : list string :=
  ["NIT-900123456"; "15/01/2025"; "$10"].

Definition cols_guiones : list string :=
  ["NIT-123-Clinica-Central"; "15/01/2025"; "$10"; "Anticipo"].

(** A record whose amount has no digit left once the symbols are removed. *)
Definition fila_valor_ilegible : fila := ["NIT-1-A"; "01/01/2025"; "$abc"].

(** What one identifier adds to the corpus: the rows of its page when its
    fetch returns them, nothing otherwise. *)
Definition fetch_logrado (P : portal) (nit : string) : bool :=
  match falla_en P nit with
  | None => restaura P nit
  | Some _ => false
  end.

Definition aporte (P : portal) (nit : string) : list fila :=
  if fetch_logrado P nit then filas_extraidas (tabla P nit) else [].

(** A portal whose browser starts but cannot load the test page. *)
Definition portal_sin_respuesta : portal :=
  Portal true false (fun _ => None) (fun _ => [fila_hospital]) (fun _ => true).

(** A portal where the browser is lost while "B" is fetched: the navigation
    raises, and so does the return to the top-level context. *)
Definition portal_averiado : portal :=
  Portal true true
         (fun nit => if String.eqb nit "B" then Some Navegacion else None)
         (fun _ => [fila_hospital])
         (fun nit => negb (String.eqb nit "B")).

(** A portal where every fetch fails at the injection of the form. *)
Definition portal_caido : portal :=
  Portal true true (fun _ => Some Inyeccion) (fun _ => [fila_hospital])
         (fun _ => true).

(** A portal whose page holds a short row besides the row of the scenario. *)
Definition portal_sano : portal :=
  Portal true true (fun _ => None)
         (fun _ => [["a"; "b"]; fila_hospital]) (fun _ => true).

(** The fields of a record that do not depend on how wide the DataFrame is. *)
Definition clave {V} (r : registro V) : string * string * string * V :=
  (NIT_IPS r, Nombre_IPS r, Fecha_Giro r, Valor r).

(** A fetched row of six cells whose anchor has only two cells after it that
    are not empty, and a wider row of the same corpus. *)
Definition fila_corta_de_seis : fila :=
  [""; ""; ""; "NIT-1-A"; "01/01/2025"; "$5"].

Definition fila_ancha : fila :=
  ["a"; "b"; "c"; "d"; "e"; "f"; "g"; "h"].

Definition fila_sin_ancla : fila :=
  ["Total"; "x"; "01/01/2025"; "$5"; "Anticipo"; "ADRES"].

(** The integer that a number of the cleaned dataset is, when it is one. *)
Definition valor_entero (n : numero) : option Z :=
  match n with
  | Entero z => Some z
  | Flotante _ => None
  end.

(** A record of the cleaned dataset with the value of Valor kept only when
    it is an integer, and the same without Concepto and Entidad. *)
Definition solo_entero (r : registro numero) : registro (option Z) :=
  Registro (NIT_IPS r) (Nombre_IPS r) (Fecha_Giro r) (valor_entero (Valor r))
           (Concepto r) (Entidad r).

Definition clave_entera (r : registro numero)
  : string * string * string * option Z :=
  (NIT_IPS r, Nombre_IPS r, Fecha_Giro r, valor_entero (Valor r)).

(** A text made of decimal digits only. *)
Fixpoint solo_cifras (t : string) : bool :=
  match t with
  | String c t' => match Pd.cifra c with Some _ => true | None => false end && solo_cifras t'
  | EmptyString => true
  end.

(** An amount as the portal prints it: decimal digits and the symbols '$',
    ',' and '.', nothing else. *)
Fixpoint es_importe (v : string) : bool :=
  match v with
  | String c v' =>
      (Py.es_simbolo c || match Pd.cifra c with Some _ => true | None => false end) && es_importe v'
  | EmptyString => true
  end.

(** How many decimal digits a text holds, and the integer that they spell
    when read from left to right, whatever stands between them. *)
Fixpoint cuenta_cifras (v : string) : nat :=
  match v with
  | String c v' => match Pd.cifra c with Some _ => 1 | None => 0 end + cuenta_cifras v'
  | EmptyString => 0
  end.

Fixpoint valor_de_cifras (acc : Z) (v : string) : Z :=
  match v with
  | String c v' =>
      match Pd.cifra c with
      | Some d => valor_de_cifras (10 * acc + d) v'
      | None => valor_de_cifras acc v'
      end
  | EmptyString => acc
  end.

(** * Properties *)

(** ** Subscripts and the scan of one row *)

Lemma item_nth {A} (l : list A) (i : nat) (d : A) :
  i < length l -> Py.item l i = Py.Ok (nth i l d).
Proof.
  intros Hi. unfold Py.item.
  destruct (nth_error l i) as [a|] eqn:E.
  - now rewrite (nth_error_nth l i d E).
  - apply nth_error_None in E. lia.
Qed.

Lemma skipn_desde {A} (l : list A) (i : nat) (a : A) :
  nth_error l i = Some a -> skipn i l = a :: skipn (S i) l.
Proof.
  revert i. induction l as [|x l IH]; intros [|i] H; simpl in *; try discriminate.
  - now inversion H.
  - now apply IH.
Qed.

Lemma intento_total (cols : list string) (idx : nat) (cell : string) :
  idx + 2 < length cols ->
  intento cols idx cell =
  Py.Ok (if valor_aceptado (nth (idx + 2) cols "") then
           if 3 <=? length (Py.split "-" 2 cell) then
             Agrega (Registro (nth 1 (Py.split "-" 2 cell) "")
                              (nth 2 (Py.split "-" 2 cell) "")
                              (nth (idx + 1) cols "") (nth (idx + 2) cols "")
                              (if idx + 3 <? length cols
                               then nth (idx + 3) cols "" else "N/A")
                              (if idx + 4 <? length cols
                               then nth (idx + 4) cols "" else "N/A"))
           else Nada
         else Continue).
Proof.
  intros Hv. unfold intento, valor_aceptado.
  rewrite (item_nth cols (idx + 2) "" Hv). cbn [Py.ligar].
  destruct (negb (Py.has_char "$" (nth (idx + 2) cols ""))
            && negb (Py.any Py.isdigit (nth (idx + 2) cols ""))); cbn [negb].
  - reflexivity.
  - destruct (3 <=? length (Py.split "-" 2 cell)) eqn:Hp; [|reflexivity].
    apply Nat.leb_le in Hp.
    rewrite (item_nth _ 1 "") by lia. rewrite (item_nth _ 2 "") by lia.
    rewrite (item_nth cols (idx + 1) "") by lia. cbn [Py.ligar].
    destruct (idx + 3 <? length cols) eqn:H3.
    + apply Nat.ltb_lt in H3. rewrite (item_nth cols (idx + 3) "" H3).
      cbn [Py.ligar].
      destruct (idx + 4 <? length cols) eqn:H4.
      * apply Nat.ltb_lt in H4. now rewrite (item_nth cols (idx + 4) "" H4).
      * reflexivity.
    + cbn [Py.ligar].
      destruct (idx + 4 <? length cols) eqn:H4.
      * apply Nat.ltb_lt in H4. now rewrite (item_nth cols (idx + 4) "" H4).
      * reflexivity.
Qed.

Lemma iteracion_califica (cols : list string) (idx : nat) (cell : string) :
  nth_error cols idx = Some cell ->
  iteracion cols idx cell =
  if califica cols idx then Some (registro_en cols idx) else None.
Proof.
  intros Hc. unfold iteracion, califica, registro_en. rewrite Hc.
  rewrite (nth_error_nth cols idx "" Hc).
  destruct (es_ancla cell); cbn [andb].
  2:{ now destruct (nth_error cols (idx + 2)). }
  destruct (idx + 2 <? length cols) eqn:Hv.
  - apply Nat.ltb_lt in Hv. rewrite (intento_total cols idx cell Hv).
    destruct (nth_error cols (idx + 2)) as [pv|] eqn:E.
    2:{ apply nth_error_None in E. lia. }
    rewrite (nth_error_nth cols (idx + 2) "" E).
    destruct (valor_aceptado pv); cbn [andb]; [|reflexivity].
    now destruct (3 <=? length (Py.split "-" 2 cell)).
  - apply Nat.ltb_ge in Hv.
    now rewrite (proj2 (nth_error_None cols (idx + 2)) Hv).
Qed.

(** The scan from [idx] on stops at the first position that qualifies. *)
Lemma recorrer_primera (cols : list string) (n idx : nat) :
  idx + n = length cols ->
  recorrer cols idx (skipn idx cols) =
  match find (califica cols) (seq idx n) with
  | Some j => [registro_en cols j]
  | None => []
  end.
Proof.
  revert idx. induction n as [|n IH]; intros idx Hn.
  - rewrite skipn_all2 by lia. reflexivity.
  - destruct (nth_error cols idx) as [cell|] eqn:Hc.
    2:{ apply nth_error_None in Hc. lia. }
    rewrite (skipn_desde cols idx cell Hc). cbn [recorrer seq find].
    rewrite (iteracion_califica cols idx cell Hc).
    destruct (califica cols idx); [reflexivity|].
    apply IH. lia.
Qed.

Lemma registros_de_cols_primera (cols : list string) :
  registros_de_cols cols =
  match find (califica cols) (seq 0 (length cols)) with
  | Some j => [registro_en cols j]
  | None => []
  end.
Proof.
  unfold registros_de_cols.
  now rewrite <- (recorrer_primera cols (length cols) 0).
Qed.

Lemma find_primera (p : nat -> bool) (n idx : nat) :
  idx < n -> p idx = true -> (forall j, j < idx -> p j = false) ->
  find p (seq 0 n) = Some idx.
Proof.
  intros Hi Hp Hmin.
  assert (G : forall k m, k <= idx -> idx < k + m ->
              find p (seq k m) = Some idx).
  { intros k m. revert k. induction m as [|m IH]; intros k Hk Hm; [lia|].
    cbn [seq find]. destruct (Nat.eq_dec k idx) as [->|Hne].
    - now rewrite Hp.
    - rewrite (Hmin k) by lia. apply IH; lia. }
  apply G; lia.
Qed.

Lemma find_ninguna (p : nat -> bool) (k n : nat) :
  (forall j, p j = false) -> find p (seq k n) = None.
Proof.
  intros Hp. revert k. induction n as [|n IH]; intros k; [reflexivity|].
  cbn [seq find]. now rewrite Hp.
Qed.

Lemma califica_en_rango (cols : list string) (idx : nat) :
  califica cols idx = true -> idx + 2 < length cols.
Proof.
  unfold califica. intros H.
  destruct (nth_error cols idx); [|discriminate].
  destruct (nth_error cols (idx + 2)) eqn:E; [|discriminate].
  apply nth_error_Some. now rewrite E.
Qed.

Lemma split_length (sep : ascii) (n : nat) (s : string) :
  1 <= length (Py.split sep n s) <= S n.
Proof.
  revert n. induction s as [|c s IH]; intros n; cbn [Py.split].
  - cbn. lia.
  - destruct n as [|m]; [cbn; lia|].
    destruct (Ascii.eqb c sep).
    + specialize (IH m). cbn [length]. lia.
    + specialize (IH (S m)).
      destruct (Py.split sep (S m) s); cbn [length] in *; lia.
Qed.

Lemma split_primera (sep : ascii) (n : nat) (a resto : string) :
  Py.has_char sep a = false ->
  Py.split sep (S n) (a ++ String sep resto)%string = a :: Py.split sep n resto.
Proof.
  induction a as [|c a IH]; intros Ha.
  - cbn [append Py.split]. now rewrite Ascii.eqb_refl.
  - unfold Py.has_char in Ha. cbn [Py.any] in Ha.
    apply orb_false_iff in Ha. destruct Ha as [Hc Ha].
    cbn [append Py.split]. rewrite Ascii.eqb_sym, Hc.
    fold (Py.has_char sep a) in Ha. now rewrite (IH Ha).
Qed.

Lemma split_cero (sep : ascii) (s : string) : Py.split sep 0 s = [s].
Proof. now destruct s. Qed.

Lemma cols_de_app (r1 r2 : list (option string)) :
  cols_de (r1 ++ r2) = cols_de r1 ++ cols_de r2.
Proof. unfold cols_de. now rewrite map_app, filter_app. Qed.

Lemma cols_de_relleno (k : nat) : cols_de (repeat None k) = repeat "None" k.
Proof.
  induction k as [|k IH]; [reflexivity|].
  change (repeat None (S k)) with ([@None string] ++ repeat None k).
  rewrite cols_de_app, IH. reflexivity.
Qed.

Lemma recorrer_relleno (cols : list string) (k idx : nat) :
  recorrer cols idx (repeat "None" k) = [].
Proof.
  revert idx. induction k as [|k IH]; intros idx; [reflexivity|].
  cbn [repeat recorrer]. unfold iteracion at 1.
  replace (es_ancla "None") with false by reflexivity. cbn [andb]. apply IH.
Qed.

(** A value candidate that is a filled-in cell is turned down. *)
Lemma iteracion_ante_relleno (cols : list string) (idx : nat) (cell : string) :
  nth_error cols idx = Some cell ->
  nth (idx + 2) cols "None" = "None" ->
  iteracion cols idx cell = None.
Proof.
  intros Hc Hn. rewrite (iteracion_califica cols idx cell Hc).
  unfold califica. rewrite Hc.
  destruct (nth_error cols (idx + 2)) as [pv|] eqn:E; [|reflexivity].
  rewrite (nth_error_nth cols (idx + 2) "None" E) in Hn. subst pv.
  replace (valor_aceptado "None") with false by reflexivity.
  now rewrite andb_false_r.
Qed.

Lemma nth_relleno (l : list string) (k i : nat) :
  length l <= i -> nth i (l ++ repeat "None" k) "None" = "None".
Proof.
  intros Hi. rewrite app_nth2 by lia.
  destruct (Nat.lt_ge_cases (i - length l) k) as [Hk|Hk].
  - apply nth_repeat_lt. exact Hk.
  - apply nth_overflow. now rewrite repeat_length.
Qed.

Lemma limpiar_datos_convertir (extraccion_bruta : list fila) :
  limpiar_datos extraccion_bruta =
  convertir_y_descartar (registros_finales extraccion_bruta).
Proof.
  unfold limpiar_datos. destruct extraccion_bruta as [|f fs]; [reflexivity|].
  now destruct (registros_finales (f :: fs)).
Qed.

Lemma quitar_simbolos_limpio (s : string) :
  Py.any Py.es_simbolo (Py.quitar_simbolos s) = false.
Proof.
  induction s as [|c s IH]; [reflexivity|]. cbn [Py.quitar_simbolos].
  destruct (Py.es_simbolo c) eqn:E; [exact IH|].
  cbn [Py.any]. now rewrite E, IH.
Qed.

Lemma convertir_y_descartar_app (df1 df2 : list (registro string)) :
  convertir_y_descartar (df1 ++ df2) =
  convertir_y_descartar df1 ++ convertir_y_descartar df2.
Proof.
  induction df1 as [|r df1 IH]; [reflexivity|].
  cbn [app convertir_y_descartar].
  destruct (convertir r); [cbn [app]; now rewrite IH | exact IH].
Qed.

(** ** The Record Reconstructor *)

(** C1: on the corpus made of the single row
    ["x"; "NIT-802010614-Hospital San Jose"; "15/01/2025"; "$5.000.000";
    "Anticipo"; "ADRES"], [limpiar_datos] gives exactly one record, with
    NIT_IPS "802010614", Nombre_IPS "Hospital San Jose", Fecha_Giro
    "15/01/2025", Valor 5000000 as a number, Concepto "Anticipo" and Entidad
    "ADRES". *)
Theorem escenario_hospital :
  limpiar_datos [fila_hospital] =
  [Registro "802010614" "Hospital San Jose" "15/01/2025" 5000000%Z
            "Anticipo" "ADRES"].
Proof. vm_compute. reflexivity. Qed.

(** C2, as stated, fails: a row of the table with six cells of which three
    are empty has three cells once the empty ones are stripped, and
    [limpiar_datos] emits a record from it. *)
Lemma fila_de_tres_celdas_emite :
  5 < length fila_tres_celdas /\
  length (cols_de (map Some fila_tres_celdas)) <= 5 /\
  registros_de_fila (Pd.rellenar (Pd.ancho [fila_tres_celdas]) fila_tres_celdas) =
    [Registro "1" "A" "01/01/2025" "$5" "N/A" "N/A"] /\
  limpiar_datos [fila_tres_celdas] =
    [Registro "1" "A" "01/01/2025" 5%Z "N/A" "N/A"].
Proof. vm_compute. repeat split; lia. Qed.

(** C2, amended: a raw row that has two cells or fewer once its empty cells
    are stripped gives no record, however wide the DataFrame that holds it
    (the cells that pandas fills in are no anchor and no amount). *)
Theorem fila_de_dos_celdas_sin_registro (f : fila) (n : nat) :
  length (cols_de (map Some f)) <= 2 ->
  registros_de_fila (Pd.rellenar n f) = [].
Proof.
  intros Hlen. unfold registros_de_fila, Pd.rellenar, registros_de_cols.
  rewrite cols_de_app, cols_de_relleno.
  set (k := n - length f). clearbody k.
  destruct (cols_de (map Some f)) as [|a [|b [|c l]]]; cbn [length] in Hlen;
    try lia; cbn [app].
  - apply recorrer_relleno.
  - cbn [recorrer].
    rewrite (iteracion_ante_relleno (a :: repeat "None" k) 0 a eq_refl)
      by (apply (nth_relleno [a] k 2); cbn; lia).
    apply recorrer_relleno.
  - cbn [recorrer].
    rewrite (iteracion_ante_relleno (a :: b :: repeat "None" k) 0 a eq_refl)
      by (apply (nth_relleno [a; b] k 2); cbn; lia).
    rewrite (iteracion_ante_relleno (a :: b :: repeat "None" k) 1 b eq_refl)
      by (apply (nth_relleno [a; b] k 3); cbn; lia).
    apply recorrer_relleno.
Qed.

Lemma fila_de_dos_celdas_sin_registro_testigo :
  length (cols_de (map Some fila_dos_celdas)) <= 2 /\
  registros_de_fila (Pd.rellenar 6 fila_dos_celdas) = [].
Proof.
  assert (H : length (cols_de (map Some fila_dos_celdas)) <= 2)
    by (vm_compute; lia).
  split; [exact H | exact (fila_de_dos_celdas_sin_registro fila_dos_celdas 6 H)].
Defined.

(** C3: an anchor cell whose value candidate, two cells to its right, holds
    neither a '$' nor a digit adds no record, and the scan of the row goes on
    with the cells after it. *)
Theorem ancla_sin_valor_se_salta
    (cols : list string) (idx : nat) (cell posible_valor : string) :
  nth_error cols idx = Some cell ->
  es_ancla cell = true ->
  nth_error cols (idx + 2) = Some posible_valor ->
  Py.has_char "$" posible_valor = false ->
  Py.any Py.isdigit posible_valor = false ->
  intento cols idx cell = Py.Ok Continue /\
  iteracion cols idx cell = None /\
  recorrer cols idx (skipn idx cols) = recorrer cols (S idx) (skipn (S idx) cols).
Proof.
  intros Hc Ha Hv Hd Hn.
  assert (Hr : idx + 2 < length cols) by (apply nth_error_Some; congruence).
  assert (Hno : valor_aceptado (nth (idx + 2) cols "") = false).
  { rewrite (nth_error_nth cols (idx + 2) "" Hv).
    unfold valor_aceptado. now rewrite Hd, Hn. }
  assert (Hi : intento cols idx cell = Py.Ok Continue).
  { rewrite (intento_total cols idx cell Hr). now rewrite Hno. }
  assert (Hit : iteracion cols idx cell = None).
  { unfold iteracion. rewrite Hi. now destruct (es_ancla cell && _). }
  repeat split; try assumption.
  rewrite (skipn_desde cols idx cell Hc). cbn [recorrer]. now rewrite Hit.
Qed.

Lemma ancla_sin_valor_se_salta_testigo :
  intento cols_nota 1 "NIT-123-ClinicName" = Py.Ok Continue /\
  iteracion cols_nota 1 "NIT-123-ClinicName" = None /\
  recorrer cols_nota 1 (skipn 1 cols_nota) = recorrer cols_nota 2 (skipn 2 cols_nota).
Proof.
  exact (ancla_sin_valor_se_salta cols_nota 1 "NIT-123-ClinicName" "bar"
           eq_refl eq_refl eq_refl eq_refl eq_refl).
Defined.

(** C4: a row gives at most one record, the one built at the first anchor,
    from the left, that passes the value gate and the arity check; whatever
    comes after it in the row, later anchors included, adds nothing. *)
Theorem un_registro_por_fila (row : list (option string)) :
  length (registros_de_fila row) <= 1 /\
  (forall idx,
      califica (cols_de row) idx = true ->
      (forall j, j < idx -> califica (cols_de row) j = false) ->
      registros_de_fila row = [registro_en (cols_de row) idx]) /\
  ((forall idx, califica (cols_de row) idx = false) ->
   registros_de_fila row = []).
Proof.
  unfold registros_de_fila. rewrite registros_de_cols_primera.
  split; [|split].
  - destruct (find _ _); cbn; lia.
  - intros idx Hq Hmin.
    rewrite (find_primera (califica (cols_de row)) (length (cols_de row)) idx);
      auto.
    apply califica_en_rango in Hq. lia.
  - intros Hno. now rewrite find_ninguna.
Qed.

Lemma un_registro_por_fila_testigo :
  registros_de_fila fila_varias_anclas =
  [Registro "1" "A" "02/01/2025" "$1" "NIT-2-B" "03/01/2025"].
Proof.
  refine (proj1 (proj2 (un_registro_por_fila fila_varias_anclas)) 3 eq_refl _).
  intros [|[|[|j]]] Hj; try reflexivity. lia.
Defined.

(** C5: at an accepted anchor the token is split on "-" into at most three
    parts.  With three parts the record takes the second as NIT_IPS and the
    third as Nombre_IPS; with fewer than three no record is made there.  So
    "NIT-900123456-Clinica Central" gives "900123456" and "Clinica Central",
    and "NIT-900123456" gives nothing. *)
Theorem division_del_ancla
    (cols : list string) (idx : nat) (cell posible_valor : string) :
  nth_error cols idx = Some cell ->
  es_ancla cell = true ->
  nth_error cols (idx + 2) = Some posible_valor ->
  valor_aceptado posible_valor = true ->
  length (Py.split "-" 2 cell) <= 3 /\
  (3 <= length (Py.split "-" 2 cell) ->
   exists r, iteracion cols idx cell = Some r /\
             nth_error (Py.split "-" 2 cell) 1 = Some (NIT_IPS r) /\
             nth_error (Py.split "-" 2 cell) 2 = Some (Nombre_IPS r)) /\
  (length (Py.split "-" 2 cell) < 3 -> iteracion cols idx cell = None) /\
  Py.split "-" 2 "NIT-900123456-Clinica Central" =
    ["NIT"; "900123456"; "Clinica Central"] /\
  Py.split "-" 2 "NIT-900123456" = ["NIT"; "900123456"].
Proof.
  intros Hc Ha Hv Hg.
  assert (Hq : califica cols idx = (3 <=? length (Py.split "-" 2 cell))).
  { unfold califica. now rewrite Hc, Hv, Ha, Hg. }
  rewrite (iteracion_califica cols idx cell Hc), Hq.
  split; [apply split_length|]. split; [|split; [|split; reflexivity]].
  - intros Hp. rewrite (proj2 (Nat.leb_le _ _) Hp).
    exists (registro_en cols idx). split; [reflexivity|].
    unfold registro_en. rewrite (nth_error_nth cols idx "" Hc).
    cbn [NIT_IPS Nombre_IPS].
    split; apply nth_error_nth'; lia.
  - intros Hp. now rewrite (proj2 (Nat.leb_gt _ _) Hp).
Qed.

Lemma division_del_ancla_testigo :
  (exists r, iteracion cols_clinica 0 "NIT-900123456-Clinica Central" = Some r /\
             NIT_IPS r = "900123456" /\ Nombre_IPS r = "Clinica Central") /\
  iteracion cols_sin_nombre 0 "NIT-900123456" = None.
Proof.
  split.
  - destruct (division_del_ancla cols_clinica 0 "NIT-900123456-Clinica Central"
                "$10" eq_refl eq_refl eq_refl eq_refl)
      as [_ [H3 _]].
    destruct (H3 (le_n 3)) as [r [Hr [Hn Hm]]].
    exists r. split; [exact Hr|].
    split; [now injection Hn | now injection Hm].
  - exact (proj1 (proj2 (proj2
             (division_del_ancla cols_sin_nombre 0 "NIT-900123456" "$10"
                eq_refl eq_refl eq_refl eq_refl))) (le_n 3)).
Defined.

(** C6: the column Valor is read as a number once every '$', ',' and '.' is
    removed: "$1.234.567" is 1234567, "$0" is 0, "abc" is no number.  The
    final dataset is the list of reconstructed records taken through that
    reading: a record whose Valor is no number is dropped, the others are
    kept in order with the number in place of the text.  The reading is that
    of pandas: white space and a sign around the digits are taken, text after
    the digits is not, and an infinity, an exponent or an integer beyond
    2^53 is a number too, so that such a record is kept. *)
Theorem normalizacion_del_valor :
  (forall v, Py.any Py.es_simbolo (Py.quitar_simbolos v) = false) /\
  normalizar_valor "$1.234.567" = Some 1234567%Z /\
  normalizar_valor "$0" = Some 0%Z /\
  normalizar_valor "abc" = None /\
  (forall extraccion_bruta,
      limpiar_datos extraccion_bruta =
      convertir_y_descartar (registros_finales extraccion_bruta)) /\
  (forall df1 r df2,
      normalizar_valor (Valor r) = None ->
      convertir_y_descartar (df1 ++ r :: df2) =
      convertir_y_descartar df1 ++ convertir_y_descartar df2) /\
  (forall df1 r df2 z,
      normalizar_valor (Valor r) = Some z ->
      convertir_y_descartar (df1 ++ r :: df2) =
      convertir_y_descartar df1
      ++ Registro (NIT_IPS r) (Nombre_IPS r) (Fecha_Giro r) z
                  (Concepto r) (Entidad r)
      :: convertir_y_descartar df2) /\
  registros_finales [fila_valor_ilegible] =
    [Registro "1" "A" "01/01/2025" "$abc" "N/A" "N/A"] /\
  limpiar_datos [fila_valor_ilegible] = [] /\
  normalizar_valor "$ 5.000.000" = Some 5000000%Z /\
  normalizar_valor "-$1.500" = Some (-1500)%Z /\
  normalizar_valor "$" = None /\
  normalizar_valor "$12abc" = None /\
  normalizar_valor "$1 2" = None /\
  normalizar_valor "$inf" = Some (Flotante "inf") /\
  normalizar_valor "1e5" = Some (Flotante "1e5") /\
  normalizar_valor "9007199254740992" = Some 9007199254740992%Z /\
  normalizar_valor "9007199254740993" = Some (Flotante "9007199254740993") /\
  limpiar_datos [["NIT-1-A"; "01/01/2025"; "$inf"]] =
    [Registro "1" "A" "01/01/2025" (Flotante "inf") "N/A" "N/A"].
Proof.
  split; [exact quitar_simbolos_limpio|].
  repeat (split; [reflexivity|]).
  split; [exact limpiar_datos_convertir|].
  split; [|split; [|repeat split; vm_compute; reflexivity]].
  - intros df1 r df2 Hv. rewrite convertir_y_descartar_app.
    cbn [convertir_y_descartar]. unfold convertir. now rewrite Hv.
  - intros df1 r df2 z Hv. rewrite convertir_y_descartar_app.
    cbn [convertir_y_descartar]. unfold convertir. now rewrite Hv.
Qed.

Lemma normalizacion_del_valor_testigo :
  convertir_y_descartar
    [Registro "1" "A" "01/01/2025" "$7" "N/A" "N/A";
     Registro "2" "B" "02/01/2025" "$abc" "N/A" "N/A";
     Registro "3" "C" "03/01/2025" "$1.000" "N/A" "N/A"] =
  [Registro "1" "A" "01/01/2025" 7%Z "N/A" "N/A";
   Registro "3" "C" "03/01/2025" 1000%Z "N/A" "N/A"].
Proof.
  exact (proj1 (proj2 (proj2 (proj2 (proj2 (proj2 normalizacion_del_valor)))))
           [Registro "1" "A" "01/01/2025" "$7" "N/A" "N/A"]
           (Registro "2" "B" "02/01/2025" "$abc" "N/A" "N/A")
           [Registro "3" "C" "03/01/2025" "$1.000" "N/A" "N/A"]
           eq_refl).
Defined.

(** C7: at an accepted anchor at [idx] of the compact cell list, Concepto is
    "N/A" when [idx + 3] is out of range and Entidad is "N/A" when [idx + 4]
    is, and no subscript raises; an anchor whose value candidate at
    [idx + 2] is out of range is passed over and gives no record. *)
Theorem desplazamientos_fuera_de_rango
    (cols : list string) (idx : nat) (cell : string) :
  nth_error cols idx = Some cell ->
  es_ancla cell = true ->
  (length cols <= idx + 2 -> iteracion cols idx cell = None) /\
  (idx + 2 < length cols -> intento cols idx cell <> Py.Excepcion) /\
  (califica cols idx = true ->
   exists r,
     intento cols idx cell = Py.Ok (Agrega r) /\
     iteracion cols idx cell = Some r /\
     (length cols <= idx + 3 -> Concepto r = "N/A") /\
     (length cols <= idx + 4 -> Entidad r = "N/A") /\
     (forall c, nth_error cols (idx + 3) = Some c -> Concepto r = c) /\
     (forall c, nth_error cols (idx + 4) = Some c -> Entidad r = c)).
Proof.
  intros Hc Ha. split; [|split].
  - intros Hlen. unfold iteracion.
    rewrite (proj2 (Nat.ltb_ge _ _) Hlen). now rewrite andb_false_r.
  - intros Hr. now rewrite (intento_total cols idx cell Hr).
  - intros Hq. pose proof (califica_en_rango cols idx Hq) as Hr.
    exists (registro_en cols idx).
    assert (Hit : iteracion cols idx cell = Some (registro_en cols idx)).
    { now rewrite (iteracion_califica cols idx cell Hc), Hq. }
    split.
    + unfold iteracion in Hit. rewrite Ha, (proj2 (Nat.ltb_lt _ _) Hr) in Hit.
      cbn [andb] in Hit.
      destruct (intento cols idx cell) as [[| r |]|]; try discriminate.
      now injection Hit as ->.
    + split; [exact Hit|]. unfold registro_en. cbn [Concepto Entidad].
      repeat split.
      * intros H3. now rewrite (proj2 (Nat.ltb_ge _ _) H3).
      * intros H4. now rewrite (proj2 (Nat.ltb_ge _ _) H4).
      * intros c E. rewrite (nth_error_nth cols (idx + 3) "" E).
        assert (H3 : idx + 3 < length cols) by (apply nth_error_Some; congruence).
        now rewrite (proj2 (Nat.ltb_lt _ _) H3).
      * intros c E. rewrite (nth_error_nth cols (idx + 4) "" E).
        assert (H4 : idx + 4 < length cols) by (apply nth_error_Some; congruence).
        now rewrite (proj2 (Nat.ltb_lt _ _) H4).
Qed.

Lemma desplazamientos_fuera_de_rango_testigo :
  (exists r, iteracion cols_guiones 0 "NIT-123-Clinica-Central" = Some r /\
             Concepto r = "Anticipo" /\ Entidad r = "N/A") /\
  iteracion ["x"; "NIT-1-A"; "$5"] 1 "NIT-1-A" = None.
Proof.
  split.
  - destruct (desplazamientos_fuera_de_rango cols_guiones 0
                "NIT-123-Clinica-Central" eq_refl eq_refl) as [_ [_ H]].
    destruct (H eq_refl) as [r [_ [Hr [_ [H4 [H3 _]]]]]].
    exists r. split; [exact Hr|].
    split; [exact (H3 "Anticipo" eq_refl) | exact (H4 (le_n 4))].
  - exact (proj1 (desplazamientos_fuera_de_rango ["x"; "NIT-1-A"; "$5"] 1
                    "NIT-1-A" eq_refl eq_refl) (le_n 3)).
Defined.

(** C10: the anchor is split at its first two "-" only, so Nombre_IPS is all
    that follows the second "-", later dashes included:
    "NIT-123-Clinica-Central" gives NIT_IPS "123" and Nombre_IPS
    "Clinica-Central". *)
Theorem nombre_conserva_guiones
    (cols : list string) (idx : nat) (a b c posible_valor : string) :
  Py.has_char "-" a = false ->
  Py.has_char "-" b = false ->
  nth_error cols idx = Some (a ++ "-" ++ b ++ "-" ++ c)%string ->
  es_ancla (a ++ "-" ++ b ++ "-" ++ c)%string = true ->
  nth_error cols (idx + 2) = Some posible_valor ->
  valor_aceptado posible_valor = true ->
  Py.split "-" 2 (a ++ "-" ++ b ++ "-" ++ c)%string = [a; b; c] /\
  exists r, iteracion cols idx (a ++ "-" ++ b ++ "-" ++ c)%string = Some r /\
            NIT_IPS r = b /\ Nombre_IPS r = c.
Proof.
  intros Hna Hnb Hc Ha Hv Hg.
  assert (Hs : Py.split "-" 2 (a ++ "-" ++ b ++ "-" ++ c)%string = [a; b; c]).
  { change ("-" ++ b ++ "-" ++ c)%string with (String "-" (b ++ String "-" c)).
    rewrite (split_primera "-" 1 a _ Hna), (split_primera "-" 0 b c Hnb).
    now rewrite split_cero. }
  split; [exact Hs|].
  exists (registro_en cols idx).
  rewrite (iteracion_califica cols idx _ Hc).
  unfold califica, registro_en. rewrite Hc, Hv, Ha, Hg.
  rewrite (nth_error_nth cols idx "" Hc), Hs. cbn. auto.
Qed.

Lemma nombre_conserva_guiones_testigo :
  Py.split "-" 2 "NIT-123-Clinica-Central" = ["NIT"; "123"; "Clinica-Central"] /\
  exists r, iteracion cols_guiones 0 "NIT-123-Clinica-Central" = Some r /\
            NIT_IPS r = "123" /\ Nombre_IPS r = "Clinica-Central".
Proof.
  exact (nombre_conserva_guiones cols_guiones 0 "NIT" "123" "Clinica-Central"
           "$10" eq_refl eq_refl eq_refl eq_refl eq_refl eq_refl).
Defined.

(** ** The Report Fetcher and the Pipeline Driver *)

Lemma extraer_datos_nit_resultado (P : portal) (nit : string) (b : navegador) :
  exists en,
    extraer_datos_nit P nit b =
    (match falla_en P nit, restaura P nit with
     | _, false => Py.Excepcion
     | Some _, true => Py.Ok []
     | None, true => Py.Ok (filas_extraidas (tabla P nit))
     end,
     Navegador (abierta b) en (consultados b ++ [nit])).
Proof.
  unfold extraer_datos_nit, try_finally, try_except, bind, llamada,
    default_content, ret.
  destruct (falla_en P nit) as [[| | | |]|]; cbn;
    destruct (restaura P nit); cbn; eexists; reflexivity.
Qed.

Lemma bucle_resultado (P : portal) (nits : list string) :
  forall (acumulado : list fila) (b : navegador),
  exists en,
    bucle P nits acumulado b =
    (Py.Ok (acumulado ++ flat_map (aporte P) nits),
     Navegador (abierta b) en (consultados b ++ nits)).
Proof.
  induction nits as [|nit resto IH]; intros acumulado b.
  - exists (en_iframe b). cbn. rewrite !app_nil_r. now destruct b.
  - cbn [bucle flat_map]. unfold bind at 1, try_except, bind at 1.
    destruct (extraer_datos_nit_resultado P nit b) as [en ->].
    unfold aporte at 1, fetch_logrado.
    destruct (falla_en P nit) as [p|]; destruct (restaura P nit);
      cbn [ret];
      match goal with
      | |- context [bucle P resto ?acc ?b'] =>
          destruct (IH acc b') as [en' ->]
      end;
      exists en'; cbn [abierta consultados];
      rewrite <- ?app_assoc; cbn [app]; rewrite ?app_nil_r; reflexivity.
Qed.

Lemma main_resultado (P : portal) (NITS : list string) :
  arranca P = true ->
  exists en,
    main P NITS sin_navegador =
    if responde P then
      (Py.Ok (exportar (limpiar_datos (flat_map (aporte P) (fromkeys NITS)))),
       Navegador false false (fromkeys NITS))
    else (Py.Ok ErrorDriver, Navegador true en []).
Proof.
  intros Ha. unfold main, bind at 1, configurar_driver, sin_navegador.
  rewrite Ha. cbn [consultados].
  unfold bind at 1, try_except, bind at 1, prueba_driver, ret.
  destruct (responde P).
  - unfold bind at 1.
    destruct (bucle_resultado P (fromkeys NITS) [] (Navegador true false []))
      as [en ->].
    exists false. reflexivity.
  - exists false. reflexivity.
Qed.

(** C8: the claim that no run ends with the browser session still held does
    not hold of [main].  When the driver test passes, the session is
    released after the loop whatever the fetches did; when the test page
    cannot be loaded, [main] returns at once and the session stays open. *)
Theorem sesion_al_terminar :
  (forall P NITS,
      arranca P = true -> responde P = true ->
      abierta (snd (main P NITS sin_navegador)) = false) /\
  (forall P NITS,
      arranca P = true -> responde P = false ->
      fst (main P NITS sin_navegador) = Py.Ok ErrorDriver /\
      abierta (snd (main P NITS sin_navegador)) = true) /\
  main portal_sin_respuesta NITS_PROCESAR sin_navegador =
    (Py.Ok ErrorDriver, Navegador true false []).
Proof.
  split; [|split].
  - intros P NITS Ha Hr.
    destruct (main_resultado P NITS Ha) as [en ->]. now rewrite Hr.
  - intros P NITS Ha Hr.
    destruct (main_resultado P NITS Ha) as [en ->]. now rewrite Hr.
  - reflexivity.
Qed.

(** C9, as stated, fails: when the navigation for "B" raises and the return
    to the top-level context raises as well, the fetch of "B" does not
    return an empty sequence, it raises. *)
Lemma fetch_que_no_devuelve_vacio :
  falla_en portal_averiado "B" = Some Navegacion /\
  fst (extraer_datos_nit portal_averiado "B" sin_navegador) = Py.Excepcion /\
  fst (extraer_datos_nit portal_averiado "B" sin_navegador) <> Py.Ok [].
Proof. repeat split. discriminate. Qed.

(** C9, amended: when a step of the fetch of an identifier raises, the fetch
    adds no row for it: it returns an empty sequence if the return to the
    top-level context completes, and raises to the loop of [main], which
    catches it, if not.  Either way the loop goes on: every identifier is
    fetched, in order, and the final dataset is built from the rows of the
    identifiers whose fetch returned them. *)
Theorem fallo_aislado (P : portal) (NITS : list string) :
  (forall nit p b,
      falla_en P nit = Some p ->
      fst (extraer_datos_nit P nit b) =
      if restaura P nit then Py.Ok [] else Py.Excepcion) /\
  (forall nit, (exists p, falla_en P nit = Some p) -> aporte P nit = []) /\
  (forall nits acumulado b,
      fst (bucle P nits acumulado b) =
        Py.Ok (acumulado ++ flat_map (aporte P) nits) /\
      consultados (snd (bucle P nits acumulado b)) = consultados b ++ nits) /\
  (arranca P = true -> responde P = true ->
   main P NITS sin_navegador =
   (Py.Ok (exportar (limpiar_datos (flat_map (aporte P) (fromkeys NITS)))),
    Navegador false false (fromkeys NITS))).
Proof.
  split; [|split; [|split]].
  - intros nit p b Hf.
    destruct (extraer_datos_nit_resultado P nit b) as [en ->].
    rewrite Hf. now destruct (restaura P nit).
  - intros nit [p Hf]. unfold aporte, fetch_logrado. now rewrite Hf.
  - intros nits acumulado b.
    destruct (bucle_resultado P nits acumulado b) as [en ->]. split; reflexivity.
  - intros Ha Hr. destruct (main_resultado P NITS Ha) as [en ->].
    now rewrite Hr.
Qed.

Lemma fallo_aislado_testigo :
  main portal_averiado ["A"; "B"; "A"; "C"] sin_navegador =
  (Py.Ok (Exporta
            [Registro "802010614" "Hospital San Jose" "15/01/2025" 5000000%Z
                      "Anticipo" "ADRES";
             Registro "802010614" "Hospital San Jose" "15/01/2025" 5000000%Z
                      "Anticipo" "ADRES"]),
   Navegador false false ["A"; "B"; "C"]).
Proof.
  exact (proj2 (proj2 (proj2
           (fallo_aislado portal_averiado ["A"; "B"; "A"; "C"])))
           eq_refl eq_refl).
Defined.


(** * Further properties *)

(** ** Deduplication of the identifiers *)

(** One step of [dict.fromkeys]: the key is added at the end unless it is
    there already. *)
Lemma fromkeys_desde_In (l claves : list string) (x : string) :
  In x (fold_left
          (fun claves x =>
             if existsb (String.eqb x) claves then claves else claves ++ [x])
          l claves)
  <-> In x claves \/ In x l.
Proof.
  revert claves. induction l as [|y l IH]; intros claves; cbn [fold_left].
  - cbn. tauto.
  - rewrite IH. destruct (existsb (String.eqb y) claves) eqn:E.
    + apply existsb_exists in E. destruct E as [z [Hz Hyz]].
      apply String.eqb_eq in Hyz. subst z. cbn [In].
      split; [tauto|]. intros [H|[->|H]]; auto.
    + rewrite in_app_iff. cbn [In]. tauto.
Qed.

Lemma fromkeys_desde_NoDup (l claves : list string) :
  NoDup claves ->
  NoDup (fold_left
           (fun claves x =>
              if existsb (String.eqb x) claves then claves else claves ++ [x])
           l claves).
Proof.
  revert claves. induction l as [|y l IH]; intros claves Hc; cbn [fold_left].
  - exact Hc.
  - apply IH. destruct (existsb (String.eqb y) claves) eqn:E; [exact Hc|].
    apply NoDup_app; [exact Hc | repeat constructor; intros [] |].
    intros z Hz [<-|[]].
    assert (Ht : existsb (String.eqb y) claves = true).
    { apply existsb_exists. exists y. split; [exact Hz|apply String.eqb_refl]. }
    congruence.
Qed.

Lemma fromkeys_desde_sin_repetir (l claves : list string) :
  NoDup (claves ++ l) ->
  fold_left
    (fun claves x =>
       if existsb (String.eqb x) claves then claves else claves ++ [x])
    l claves
  = claves ++ l.
Proof.
  revert claves. induction l as [|y l IH]; intros claves Hnd; cbn [fold_left].
  - now rewrite app_nil_r.
  - destruct (existsb (String.eqb y) claves) eqn:E.
    + apply existsb_exists in E. destruct E as [z [Hz Hyz]].
      apply String.eqb_eq in Hyz. subst z.
      apply NoDup_remove_2 in Hnd. exfalso. apply Hnd.
      apply in_or_app. now left.
    + replace (claves ++ y :: l) with ((claves ++ [y]) ++ l) in *
        by (now rewrite <- app_assoc).
      now apply IH.
Qed.

Lemma fromkeys_NoDup (l : list string) : NoDup (fromkeys l).
Proof. apply fromkeys_desde_NoDup. constructor. Qed.

Lemma fromkeys_In (l : list string) (x : string) : In x (fromkeys l) <-> In x l.
Proof. unfold fromkeys. rewrite fromkeys_desde_In. cbn. tauto. Qed.

Lemma fromkeys_sin_repetir (l : list string) : NoDup l -> fromkeys l = l.
Proof. intros H. exact (fromkeys_desde_sin_repetir l [] H). Qed.

(** X1: [list(dict.fromkeys(l))] holds every identifier of [l], and each one
    only once. *)
Theorem fromkeys_sin_duplicados (l : list string) :
  NoDup (fromkeys l) /\ (forall x, In x (fromkeys l) <-> In x l).
Proof. split; [apply fromkeys_NoDup | intros x; apply fromkeys_In]. Qed.

(** X2: a list without repetitions goes through the deduplication unchanged,
    order included, so deduplicating twice is deduplicating once; and an
    identifier met again later is not added nor moved. *)
Theorem fromkeys_conserva_orden (l : list string) :
  (NoDup l -> fromkeys l = l) /\
  fromkeys (fromkeys l) = fromkeys l /\
  (forall x, fromkeys (l ++ [x]) =
             if existsb (String.eqb x) l then fromkeys l else fromkeys l ++ [x]).
Proof.
  split; [apply fromkeys_sin_repetir|]. split.
  - apply fromkeys_sin_repetir, fromkeys_NoDup.
  - intros x. unfold fromkeys at 1. rewrite fold_left_app. cbn [fold_left].
    fold (fromkeys l).
    assert (E : existsb (String.eqb x) (fromkeys l) = existsb (String.eqb x) l).
    { apply eq_true_iff_eq. rewrite !existsb_exists.
      split; intros [y [Hy Hxy]]; exists y; split; auto;
        now apply fromkeys_In. }
    now rewrite E.
Qed.

Lemma fromkeys_conserva_orden_testigo :
  fromkeys ["890303208"; "816001182"; "802010614"] =
  ["890303208"; "816001182"; "802010614"].
Proof.
  refine (proj1 (fromkeys_conserva_orden _) _).
  repeat constructor; cbn; intuition discriminate.
Defined.

(** ** The fetch of one identifier *)

Lemma extraer_datos_nit_estado (P : portal) (nit : string) (b : navegador) :
  extraer_datos_nit P nit b =
  (match falla_en P nit, restaura P nit with
   | _, false => Py.Excepcion
   | Some _, true => Py.Ok []
   | None, true => Py.Ok (filas_extraidas (tabla P nit))
   end,
   Navegador (abierta b)
             (match falla_en P nit, restaura P nit with
              | _, true => false
              | Some Navegacion, false => false
              | Some Localizacion, false => false
              | _, false => true
              end)
             (consultados b ++ [nit])).
Proof.
  unfold extraer_datos_nit, try_finally, try_except, bind, llamada,
    default_content, ret.
  destruct (falla_en P nit) as [[| | | |]|]; cbn;
    destruct (restaura P nit); cbn; reflexivity.
Qed.

(** X3: a fetch neither closes nor opens the session and records its
    identifier as attempted; it raises exactly when the return to the
    top-level context raises; and whenever it returns, the browser is back in
    the top-level context. *)
Theorem extraer_datos_nit_restaura (P : portal) (nit : string) (b : navegador) :
  abierta (snd (extraer_datos_nit P nit b)) = abierta b /\
  consultados (snd (extraer_datos_nit P nit b)) = consultados b ++ [nit] /\
  (fst (extraer_datos_nit P nit b) = Py.Excepcion <-> restaura P nit = false) /\
  (fst (extraer_datos_nit P nit b) <> Py.Excepcion ->
   en_iframe (snd (extraer_datos_nit P nit b)) = false).
Proof.
  rewrite extraer_datos_nit_estado. cbn [fst snd abierta consultados en_iframe].
  repeat split.
  - destruct (falla_en P nit), (restaura P nit); intros; congruence.
  - intros ->. now destruct (falla_en P nit).
  - destruct (falla_en P nit) as [[| | | |]|], (restaura P nit);
      intros H; try reflexivity; now elim H.
Qed.

Lemma extraer_datos_nit_restaura_testigo :
  en_iframe (snd (extraer_datos_nit portal_caido "A" (Navegador true true []))) = false.
Proof.
  refine (proj2 (proj2 (proj2
            (extraer_datos_nit_restaura portal_caido "A" (Navegador true true []))))
            _).
  discriminate.
Defined.

(** X4: the rows that a fetch returns are rows of the page, in the order of
    the page, and each has more than five cells; a page without such a row
    gives an empty list, like a failed fetch. *)
Theorem extraer_datos_nit_mas_de_cinco
    (P : portal) (nit : string) (b : navegador) (filas : list fila) :
  fst (extraer_datos_nit P nit b) = Py.Ok filas ->
  (filas = [] \/ filas = filter (fun cells => 5 <? length cells) (tabla P nit)) /\
  (forall f, In f filas -> In f (tabla P nit) /\ 5 < length f).
Proof.
  rewrite extraer_datos_nit_estado. cbn [fst].
  intros H.
  assert (Hf : filas = [] \/ filas = filas_extraidas (tabla P nit)).
  { destruct (falla_en P nit), (restaura P nit); inversion H; auto. }
  split; [exact Hf|].
  intros f Hin. destruct Hf as [->| ->]; [destruct Hin|].
  apply filter_In in Hin. destruct Hin as [Hin Hlen].
  split; [exact Hin | now apply Nat.ltb_lt].
Qed.

Lemma extraer_datos_nit_mas_de_cinco_testigo :
  In fila_hospital (tabla portal_sano "A") /\ 5 < length fila_hospital.
Proof.
  exact (proj2 (extraer_datos_nit_mas_de_cinco portal_sano "A" sin_navegador
                  [fila_hospital] eq_refl)
           fila_hospital (or_introl eq_refl)).
Defined.

(** ** The run as a whole *)

Lemma main_completo (P : portal) (NITS : list string) :
  main P NITS sin_navegador =
  if arranca P then
    if responde P then
      (Py.Ok (exportar (limpiar_datos (flat_map (aporte P) (fromkeys NITS)))),
       Navegador false false (fromkeys NITS))
    else (Py.Ok ErrorDriver, Navegador true false [])
  else (Py.Excepcion, sin_navegador).
Proof.
  unfold main, bind at 1, configurar_driver, sin_navegador.
  destruct (arranca P); [|reflexivity]. cbn [consultados].
  unfold bind at 1, try_except, bind at 1, prueba_driver, ret.
  destruct (responde P); [|reflexivity].
  unfold bind at 1.
  destruct (bucle_resultado P (fromkeys NITS) [] (Navegador true false []))
    as [en ->].
  reflexivity.
Qed.

Lemma exportar_no_vacio (df : list (registro numero)) :
  exportar df <> Exporta [].
Proof. destruct df; discriminate. Qed.

Lemma aporte_nulo (P : portal) (nits : list string) :
  (forall nit, In nit nits -> aporte P nit = []) ->
  flat_map (aporte P) nits = [].
Proof.
  induction nits as [|nit nits IH]; intros H; [reflexivity|].
  cbn [flat_map]. rewrite (H nit (or_introl eq_refl)). cbn [app].
  apply IH. intros n Hn. apply H. now right.
Qed.

(** X5: when the driver test passes, the identifiers fetched are those of
    the list, each one once, in the order they first appear. *)
Theorem cada_nit_una_vez (P : portal) (NITS : list string) :
  arranca P = true -> responde P = true ->
  consultados (snd (main P NITS sin_navegador)) = fromkeys NITS /\
  NoDup (consultados (snd (main P NITS sin_navegador))) /\
  (forall nit, In nit (consultados (snd (main P NITS sin_navegador)))
               <-> In nit NITS).
Proof.
  intros Ha Hr. rewrite main_completo, Ha, Hr. cbn [snd consultados].
  split; [reflexivity|]. split; [apply fromkeys_NoDup|].
  intros nit. apply fromkeys_In.
Qed.

Lemma cada_nit_una_vez_testigo :
  consultados (snd (main portal_sano ["A"; "B"; "A"] sin_navegador)) = ["A"; "B"].
Proof.
  exact (proj1 (cada_nit_una_vez portal_sano ["A"; "B"; "A"] eq_refl eq_refl)).
Defined.

(** X6: [main] raises only when the browser cannot be started, and then no
    session is held and nothing was fetched; once the driver exists, [main]
    returns whatever the portal does. *)
Theorem main_solo_falla_al_arrancar (P : portal) (NITS : list string) :
  (fst (main P NITS sin_navegador) = Py.Excepcion <-> arranca P = false) /\
  (arranca P = false -> snd (main P NITS sin_navegador) = sin_navegador).
Proof.
  rewrite main_completo.
  destruct (arranca P), (responde P); cbn [fst snd];
    split; try split; intros; congruence.
Qed.

Lemma main_solo_falla_al_arrancar_testigo :
  snd (main (Portal false true (fun _ => None) (fun _ => []) (fun _ => true))
            ["A"] sin_navegador) = sin_navegador.
Proof.
  exact (proj2 (main_solo_falla_al_arrancar
                  (Portal false true (fun _ => None) (fun _ => []) (fun _ => true))
                  ["A"]) eq_refl).
Defined.

(** X7: when the driver test fails, [main] returns without having fetched
    any identifier. *)
Theorem prueba_fallida_no_consulta (P : portal) (NITS : list string) :
  arranca P = true -> responde P = false ->
  fst (main P NITS sin_navegador) = Py.Ok ErrorDriver /\
  consultados (snd (main P NITS sin_navegador)) = [].
Proof.
  intros Ha Hr. rewrite main_completo, Ha, Hr. split; reflexivity.
Qed.

Lemma prueba_fallida_no_consulta_testigo :
  fst (main portal_sin_respuesta ["A"; "B"] sin_navegador) = Py.Ok ErrorDriver /\
  consultados (snd (main portal_sin_respuesta ["A"; "B"] sin_navegador)) = [].
Proof.
  exact (prueba_fallida_no_consulta portal_sin_respuesta ["A"; "B"]
           eq_refl eq_refl).
Defined.

(** X8: [main] never exports an empty dataset: it writes the file exactly
    when the cleaned dataset has a record, and the file holds that dataset;
    otherwise it reports that nothing was found. *)
Theorem main_no_exporta_vacio (P : portal) (NITS : list string) :
  fst (main P NITS sin_navegador) <> Py.Ok (Exporta []) /\
  (forall df, fst (main P NITS sin_navegador) = Py.Ok (Exporta df) ->
              df = limpiar_datos (flat_map (aporte P) (fromkeys NITS))) /\
  (fst (main P NITS sin_navegador) = Py.Ok SinDatos ->
   limpiar_datos (flat_map (aporte P) (fromkeys NITS)) = []).
Proof.
  rewrite main_completo.
  destruct (arranca P), (responde P); cbn [fst];
    repeat split; try congruence; try discriminate.
  - intros H. injection H as H. now apply exportar_no_vacio in H.
  - intros df H. injection H as H.
    destruct (limpiar_datos _) eqn:E; cbn in H; congruence.
  - intros H. injection H as H.
    destruct (limpiar_datos _) eqn:E; cbn in H; congruence.
Qed.

Lemma main_no_exporta_vacio_testigo :
  limpiar_datos (flat_map (aporte portal_caido) (fromkeys ["A"; "B"])) = [].
Proof.
  exact (proj2 (proj2 (main_no_exporta_vacio portal_caido ["A"; "B"])) eq_refl).
Defined.

(** X9: when no identifier adds a row to the corpus (its fetch fails or its
    page has no row of more than five cells; the empty list of identifiers
    included), every identifier is still attempted, the session is closed
    and [main] reports that nothing was found. *)
Theorem sin_filas_sin_datos (P : portal) (NITS : list string) :
  arranca P = true -> responde P = true ->
  (forall nit, In nit NITS -> aporte P nit = []) ->
  main P NITS sin_navegador =
  (Py.Ok SinDatos, Navegador false false (fromkeys NITS)).
Proof.
  intros Ha Hr Hf. rewrite main_completo, Ha, Hr.
  rewrite aporte_nulo; [reflexivity|].
  intros nit Hin. apply Hf. now apply fromkeys_In.
Qed.

Lemma sin_filas_sin_datos_testigo :
  main portal_caido ["A"; "B"; "A"] sin_navegador =
  (Py.Ok SinDatos, Navegador false false ["A"; "B"]).
Proof.
  exact (sin_filas_sin_datos portal_caido ["A"; "B"; "A"] eq_refl eq_refl
           (fun _ _ => eq_refl)).
Defined.

(** ** The scan of the rows *)

Lemma registros_de_cols_inversion (cols : list string) (r : registro string) :
  In r (registros_de_cols cols) ->
  exists idx, califica cols idx = true /\ r = registro_en cols idx /\
              registros_de_cols cols = [r].
Proof.
  rewrite registros_de_cols_primera.
  destruct (find (califica cols) (seq 0 (length cols))) as [j|] eqn:E;
    [|intros []].
  intros [<-|[]]. exists j. apply find_some in E. tauto.
Qed.

Lemma registros_de_cols_corto (cols : list string) :
  length (registros_de_cols cols) <= 1.
Proof.
  rewrite registros_de_cols_primera. destruct (find _ _); cbn; lia.
Qed.

Lemma convertir_y_descartar_corto (df : list (registro string)) :
  length (convertir_y_descartar df) <= length df.
Proof.
  induction df as [|r df IH]; [cbn; lia|].
  cbn [convertir_y_descartar]. destruct (convertir r); cbn [length]; lia.
Qed.

Lemma flat_map_corto {A B} (g : A -> list B) (l : list A) :
  (forall a, length (g a) <= 1) -> length (flat_map g l) <= length l.
Proof.
  intros Hg. induction l as [|a l IH]; [cbn; lia|].
  cbn [flat_map]. rewrite length_app. specialize (Hg a). cbn [length]. lia.
Qed.

(** X10: the cleaned dataset never has more records than the corpus has
    rows. *)
Theorem limpiar_datos_no_crece (extraccion_bruta : list fila) :
  length (limpiar_datos extraccion_bruta) <= length extraccion_bruta.
Proof.
  rewrite limpiar_datos_convertir.
  eapply Nat.le_trans; [apply convertir_y_descartar_corto|].
  unfold registros_finales.
  eapply Nat.le_trans.
  - apply flat_map_corto. intros row. apply registros_de_cols_corto.
  - unfold Pd.DataFrame. now rewrite length_map.
Qed.

Lemma nth_error_relleno (k i : nat) (x : string) :
  nth_error (repeat "None" k) i = Some x -> x = "None".
Proof. intros H. apply nth_error_In in H. now apply repeat_spec in H. Qed.

Lemma califica_relleno (cols : list string) (k idx : nat) :
  califica (cols ++ repeat "None" k) idx = califica cols idx.
Proof.
  unfold califica.
  destruct (Nat.lt_ge_cases idx (length cols)) as [Hi|Hi].
  - rewrite (nth_error_app1 _ _ Hi).
    destruct (nth_error cols idx) as [cell|]; [|reflexivity].
    destruct (Nat.lt_ge_cases (idx + 2) (length cols)) as [Hv|Hv].
    + now rewrite (nth_error_app1 _ _ Hv).
    + rewrite (nth_error_app2 _ _ Hv).
      rewrite (proj2 (nth_error_None cols (idx + 2)) Hv).
      destruct (nth_error (repeat "None" k) _) as [x|] eqn:E; [|reflexivity].
      apply nth_error_relleno in E. subst x.
      replace (valor_aceptado "None") with false by reflexivity.
      now rewrite andb_false_r.
  - rewrite (nth_error_app2 _ _ Hi).
    rewrite (proj2 (nth_error_None cols idx) Hi).
    destruct (nth_error (repeat "None" k) _) as [x|] eqn:E; [|reflexivity].
    apply nth_error_relleno in E. subst x.
    replace (es_ancla "None") with false by reflexivity.
    now destruct (nth_error _ (idx + 2)).
Qed.

Lemma find_igual {A} (p q : A -> bool) (l : list A) :
  (forall x, p x = q x) -> find p l = find q l.
Proof.
  intros H. induction l as [|a l IH]; [reflexivity|].
  cbn [find]. now rewrite H, IH.
Qed.

Lemma find_sin_cola {A} (p : A -> bool) (l1 l2 : list A) :
  (forall x, In x l2 -> p x = false) -> find p (l1 ++ l2) = find p l1.
Proof.
  intros H. induction l1 as [|a l1 IH]; cbn [app find].
  - induction l2 as [|b l2 IH2]; [reflexivity|].
    cbn [find]. rewrite (H b (or_introl eq_refl)).
    apply IH2. intros x Hx. apply H. now right.
  - now rewrite IH.
Qed.

Lemma califica_fuera (cols : list string) (idx : nat) :
  length cols <= idx -> califica cols idx = false.
Proof.
  intros H. unfold califica.
  now rewrite (proj2 (nth_error_None cols idx) H).
Qed.

Lemma primera_relleno (cols : list string) (k : nat) :
  find (califica (cols ++ repeat "None" k))
       (seq 0 (length (cols ++ repeat "None" k)))
  = find (califica cols) (seq 0 (length cols)).
Proof.
  rewrite length_app, repeat_length, seq_app.
  rewrite (find_igual _ (califica cols)) by (intros x; apply califica_relleno).
  apply find_sin_cola. intros x Hx. apply in_seq in Hx.
  apply califica_fuera. lia.
Qed.

Lemma clave_relleno (cols : list string) (k idx : nat) :
  califica cols idx = true ->
  clave (registro_en (cols ++ repeat "None" k) idx) = clave (registro_en cols idx).
Proof.
  intros Hq. apply califica_en_rango in Hq.
  unfold clave, registro_en. cbn [NIT_IPS Nombre_IPS Fecha_Giro Valor].
  now rewrite !app_nth1 by lia.
Qed.

Lemma cols_de_rellenar (n : nat) (f : fila) :
  cols_de (Pd.rellenar n f) = cols_de (map Some f) ++ repeat "None" (n - length f).
Proof. unfold Pd.rellenar. now rewrite cols_de_app, cols_de_relleno. Qed.

Lemma clave_rellenar (n : nat) (f : fila) :
  map clave (registros_de_fila (Pd.rellenar n f)) =
  map clave (registros_de_fila (map Some f)).
Proof.
  unfold registros_de_fila. rewrite cols_de_rellenar.
  rewrite !registros_de_cols_primera, primera_relleno.
  destruct (find _ _) as [j|] eqn:E; [|reflexivity].
  apply find_some in E. cbn [map]. f_equal. apply clave_relleno. tauto.
Qed.

(** X11: whether a row gives a record, and the NIT_IPS, Nombre_IPS,
    Fecha_Giro and Valor of that record, do not depend on how many cells the
    DataFrame adds to the row to make it as wide as the widest row. *)
Theorem registro_ajeno_al_ancho (f : fila) (n : nat) :
  map clave (registros_de_fila (Pd.rellenar n f)) =
  map clave (registros_de_fila (map Some f)) /\
  length (registros_de_fila (Pd.rellenar n f)) =
  length (registros_de_fila (map Some f)).
Proof.
  split; [apply clave_rellenar|].
  rewrite <- (length_map clave), clave_rellenar. apply length_map.
Qed.

Lemma claves_de_filas (w : nat) (l : list fila) :
  map clave (flat_map registros_de_fila (map (Pd.rellenar w) l)) =
  flat_map (fun f => map clave (registros_de_fila (map Some f))) l.
Proof.
  induction l as [|f l IH]; [reflexivity|].
  cbn [map flat_map]. now rewrite map_app, IH, clave_rellenar.
Qed.

Lemma claves_finales (extraccion_bruta : list fila) :
  map clave (registros_finales extraccion_bruta) =
  flat_map (fun f => map clave (registros_de_fila (map Some f))) extraccion_bruta.
Proof. apply claves_de_filas. Qed.

Lemma convertir_segun_clave (r1 r2 : registro string) :
  clave r1 = clave r2 ->
  option_map clave_entera (convertir r1) = option_map clave_entera (convertir r2).
Proof.
  unfold clave, convertir. intros H. injection H as Hn Hm Hf Hv.
  rewrite Hv. destruct (normalizar_valor (Valor r2)); [|reflexivity].
  cbn. unfold clave_entera. cbn. now rewrite Hn, Hm, Hf.
Qed.

Lemma convertir_y_descartar_segun_claves (df1 : list (registro string)) :
  forall df2,
    map clave df1 = map clave df2 ->
    map clave_entera (convertir_y_descartar df1) =
    map clave_entera (convertir_y_descartar df2).
Proof.
  induction df1 as [|r1 df1 IH]; intros [|r2 df2] H; try discriminate;
    [reflexivity|].
  cbn [map] in H.
  assert (Hr : clave r1 = clave r2) by congruence.
  assert (Hdf : map clave df1 = map clave df2) by congruence.
  cbn [convertir_y_descartar].
  pose proof (convertir_segun_clave r1 r2 Hr) as Hc.
  destruct (convertir r1) as [q1|], (convertir r2) as [q2|];
    cbn [option_map] in Hc; try discriminate.
  - assert (Hq : clave_entera q1 = clave_entera q2) by congruence.
    cbn [map]. rewrite Hq. f_equal. now apply IH.
  - now apply IH.
Qed.

(** X12: up to Concepto and Entidad, cleaning is local to the rows.  For a
    corpus made of two parts, the reconstructed records, with Valor as text,
    are those of the first part followed by those of the second; so are the
    records of the cleaned dataset, with the same number wherever Valor reads
    as an integer up to 2^53 (nothing being said of the value of the others);
    and the numbers of records add up. *)
Theorem limpiar_datos_por_partes (eb1 eb2 : list fila) :
  map clave (registros_finales (eb1 ++ eb2)) =
  map clave (registros_finales eb1) ++ map clave (registros_finales eb2) /\
  map clave_entera (limpiar_datos (eb1 ++ eb2)) =
  map clave_entera (limpiar_datos eb1) ++ map clave_entera (limpiar_datos eb2) /\
  length (limpiar_datos (eb1 ++ eb2)) =
  length (limpiar_datos eb1) + length (limpiar_datos eb2).
Proof.
  assert (H0 : map clave (registros_finales (eb1 ++ eb2)) =
               map clave (registros_finales eb1)
               ++ map clave (registros_finales eb2)).
  { now rewrite !claves_finales, flat_map_app. }
  assert (H : map clave_entera (limpiar_datos (eb1 ++ eb2)) =
              map clave_entera (limpiar_datos eb1)
              ++ map clave_entera (limpiar_datos eb2)).
  { rewrite !limpiar_datos_convertir, <- map_app, <- convertir_y_descartar_app.
    apply convertir_y_descartar_segun_claves. now rewrite map_app. }
  split; [exact H0|]. split; [exact H|].
  rewrite <- (length_map clave_entera), H, length_app. now rewrite !length_map.
Qed.

Lemma ancho_cota {A} (n : nat) (l : list (list A)) :
  (forall f, In f l -> length f <= n) -> Pd.ancho l <= n.
Proof.
  induction l as [|f l IH]; intros H; [cbn; lia|].
  cbn [Pd.ancho fold_right]. fold (Pd.ancho l).
  apply Nat.max_lub; [apply H; now left | apply IH; intros g Hg; apply H; now right].
Qed.

Lemma rellenar_justo {A} (w : nat) (f : list A) :
  w <= length f -> Pd.rellenar w f = map Some f.
Proof.
  intros H. unfold Pd.rellenar.
  replace (w - length f) with 0 by lia. apply app_nil_r.
Qed.

Lemma registros_finales_uniforme (n : nat) (eb : list fila) :
  (forall f, In f eb -> length f = n) ->
  registros_finales eb = flat_map (fun f => registros_de_fila (map Some f)) eb.
Proof.
  intros H. unfold registros_finales, Pd.DataFrame.
  assert (Hw : Pd.ancho eb <= n).
  { apply ancho_cota. intros f Hf. rewrite (H f Hf). lia. }
  revert Hw. generalize (Pd.ancho eb) as w. intros w Hw.
  induction eb as [|f eb IH]; [reflexivity|].
  cbn [map flat_map]. rewrite rellenar_justo.
  - f_equal. apply IH. intros g Hg. apply H. now right.
  - rewrite (H f (or_introl eq_refl)). exact Hw.
Qed.

(** X13: when all the rows of the corpus have the same number of cells,
    cleaning is local to the rows, Concepto and Entidad included.  For a
    corpus made of two parts, the reconstructed records are those of the
    first part followed by those of the second; so are the records of the
    cleaned dataset, with the same number wherever Valor reads as an integer
    up to 2^53 (nothing being said of the value of the others). *)
Theorem limpiar_datos_uniforme (n : nat) (eb1 eb2 : list fila) :
  (forall f, In f (eb1 ++ eb2) -> length f = n) ->
  registros_finales (eb1 ++ eb2) = registros_finales eb1 ++ registros_finales eb2 /\
  map solo_entero (limpiar_datos (eb1 ++ eb2)) =
  map solo_entero (limpiar_datos eb1) ++ map solo_entero (limpiar_datos eb2).
Proof.
  intros H.
  assert (H0 : registros_finales (eb1 ++ eb2) =
               registros_finales eb1 ++ registros_finales eb2).
  { rewrite (registros_finales_uniforme n (eb1 ++ eb2) H).
    rewrite (registros_finales_uniforme n eb1)
      by (intros f Hf; apply H, in_or_app; now left).
    rewrite (registros_finales_uniforme n eb2)
      by (intros f Hf; apply H, in_or_app; now right).
    apply flat_map_app. }
  split; [exact H0|].
  rewrite !limpiar_datos_convertir, H0, convertir_y_descartar_app.
  apply map_app.
Qed.

Lemma limpiar_datos_uniforme_testigo :
  registros_finales ([fila_hospital] ++ [fila_sin_ancla; fila_hospital]) =
  registros_finales [fila_hospital]
  ++ registros_finales [fila_sin_ancla; fila_hospital] /\
  map solo_entero (limpiar_datos ([fila_hospital] ++ [fila_sin_ancla; fila_hospital])) =
  map solo_entero (limpiar_datos [fila_hospital])
  ++ map solo_entero (limpiar_datos [fila_sin_ancla; fila_hospital]).
Proof.
  apply (limpiar_datos_uniforme 6).
  intros f [<-|[<-|[<-|[]]]]; reflexivity.
Defined.

(** X14: the fields Concepto and Entidad are not local to the row.  When
    the first qualifying anchor of a row has only two cells after it, the
    record has Concepto "N/A" if the row is as wide as the DataFrame, and
    the text of a filled-in cell if the DataFrame is wider. *)
Theorem concepto_segun_el_ancho (f : fila) (n idx : nat) :
  califica (cols_de (map Some f)) idx = true ->
  (forall j, j < idx -> califica (cols_de (map Some f)) j = false) ->
  length (cols_de (map Some f)) = idx + 3 ->
  length f < n ->
  (exists r, registros_de_fila (map Some f) = [r] /\ Concepto r = "N/A") /\
  (exists r, registros_de_fila (Pd.rellenar n f) = [r] /\
             Concepto r = str None /\ Concepto r <> "N/A").
Proof.
  intros Hq Hmin Hlen Hn. split.
  - exists (registro_en (cols_de (map Some f)) idx). split.
    + unfold registros_de_fila. rewrite registros_de_cols_primera.
      rewrite (find_primera _ _ idx); auto. lia.
    + unfold registro_en. cbn [Concepto].
      now rewrite (proj2 (Nat.ltb_ge _ _)) by lia.
  - set (cols := cols_de (map Some f)) in *.
    set (k := n - length f).
    exists (registro_en (cols ++ repeat "None" k) idx).
    assert (Hc : Concepto (registro_en (cols ++ repeat "None" k) idx) = "None").
    { unfold registro_en. cbn [Concepto].
      rewrite length_app, repeat_length.
      rewrite (proj2 (Nat.ltb_lt _ _)) by (unfold k; lia).
      rewrite app_nth2 by lia.
      replace (idx + 3 - length cols) with 0 by lia.
      unfold k. destruct (n - length f) eqn:E; [lia|reflexivity]. }
    split; [|split; [exact Hc | rewrite Hc; discriminate]].
    unfold registros_de_fila. rewrite cols_de_rellenar. fold cols. fold k.
    rewrite registros_de_cols_primera, primera_relleno.
    rewrite (find_primera _ _ idx); auto. lia.
Qed.

Lemma concepto_segun_el_ancho_testigo :
  (exists r, registros_de_fila (map Some fila_corta_de_seis) = [r] /\
             Concepto r = "N/A") /\
  (exists r, registros_de_fila (Pd.rellenar 8 fila_corta_de_seis) = [r] /\
             Concepto r = str None /\ Concepto r <> "N/A").
Proof.
  apply (concepto_segun_el_ancho fila_corta_de_seis 8 0).
  - reflexivity.
  - intros j Hj. inversion Hj.
  - reflexivity.
  - cbn. lia.
Defined.

(** ** Anchors and the cells of a row *)

Lemma prefix_vacio (s : string) : prefix "" s = true.
Proof. now destruct s. Qed.

Lemma prefix_app (sub a w : string) :
  prefix sub a = true -> prefix sub (a ++ w)%string = true.
Proof.
  revert sub. induction a as [|d a IH]; intros [|c sub] H;
    try apply prefix_vacio; [discriminate|].
  cbn [append prefix] in *. destruct (ascii_dec c d); [now apply IH|discriminate].
Qed.

Lemma contains_vacio (s : string) : Py.contains "" s = true.
Proof. now destruct s. Qed.

Lemma contains_app (sub a w : string) :
  Py.contains sub a = true -> Py.contains sub (a ++ w)%string = true.
Proof.
  induction a as [|c a IH]; intros H.
  - cbn [Py.contains] in H. rewrite orb_false_r in H.
    destruct sub; [apply contains_vacio|discriminate].
  - cbn [append Py.contains] in *. apply orb_true_iff in H.
    apply orb_true_iff. destruct H as [H|H].
    + left. exact (prefix_app sub (String c a) w H).
    + right. now apply IH.
Qed.

Lemma rstrip_prefijo (s : string) : exists w, s = (Py.rstrip s ++ w)%string.
Proof.
  induction s as [|c s [w IH]]; [now exists ""|].
  cbn [Py.rstrip]. destruct (Py.rstrip s) as [|d r].
  - destruct (Py.isspace c).
    + now exists (String c s).
    + exists s. reflexivity.
  - exists w. cbn [append]. now rewrite IH at 1.
Qed.

Lemma contains_lstrip (sub s : string) :
  Py.contains sub (Py.lstrip s) = true -> Py.contains sub s = true.
Proof.
  induction s as [|c s IH]; [trivial|].
  cbn [Py.lstrip]. destruct (Py.isspace c); [|trivial].
  intros H. cbn [Py.contains]. rewrite (IH H). apply orb_true_r.
Qed.

Lemma es_ancla_strip (c : string) :
  es_ancla (Py.strip c) = true -> es_ancla c = true.
Proof.
  unfold es_ancla, Py.strip. intros H. apply contains_lstrip.
  destruct (rstrip_prefijo (Py.lstrip c)) as [w Hw].
  rewrite Hw. now apply contains_app.
Qed.

Lemma registros_de_cols_sin_ancla (cols : list string) :
  (forall c, In c cols -> es_ancla c = false) -> registros_de_cols cols = [].
Proof.
  intros H. rewrite registros_de_cols_primera, find_ninguna; [reflexivity|].
  intros j. unfold califica.
  destruct (nth_error cols j) as [cell|] eqn:E; [|reflexivity].
  rewrite (H cell (nth_error_In _ _ E)).
  now destruct (nth_error cols (j + 2)).
Qed.

Lemma cols_de_In (row : list (option string)) (c : string) :
  In c (cols_de row) <->
  c <> "" /\ exists x, In x row /\ c = Py.strip (str x).
Proof.
  unfold cols_de. rewrite filter_In, in_map_iff, negb_true_iff.
  rewrite String.eqb_neq. split.
  - intros [[x [Hx Hin]] Hne]. split; [exact Hne|]. now exists x.
  - intros [Hne [x [Hin Hx]]]. split; [|exact Hne]. now exists x.
Qed.

Lemma rellenar_In {A} (n : nat) (f : list A) (x : option A) :
  In x (Pd.rellenar n f) -> x = None \/ exists a, x = Some a /\ In a f.
Proof.
  unfold Pd.rellenar. rewrite in_app_iff, in_map_iff.
  intros [[a [Ha Hin]]|H].
  - right. now exists a.
  - left. now apply repeat_spec in H.
Qed.

Lemma flat_map_nulo {A B} (g : A -> list B) (l : list A) :
  (forall a, In a l -> g a = []) -> flat_map g l = [].
Proof.
  induction l as [|a l IH]; intros H; [reflexivity|].
  cbn [flat_map]. rewrite (H a (or_introl eq_refl)). cbn [app].
  apply IH. intros b Hb. apply H. now right.
Qed.

(** X15: a corpus in which no cell holds "NIT-", the empty corpus included,
    gives an empty dataset. *)
Theorem sin_ancla_sin_registros (extraccion_bruta : list fila) :
  (forall f c, In f extraccion_bruta -> In c f -> es_ancla c = false) ->
  registros_finales extraccion_bruta = [] /\ limpiar_datos extraccion_bruta = [].
Proof.
  intros H.
  assert (Hr : registros_finales extraccion_bruta = []).
  { unfold registros_finales, Pd.DataFrame. apply flat_map_nulo.
    intros row Hrow. apply in_map_iff in Hrow. destruct Hrow as [f [<- Hf]].
    apply registros_de_cols_sin_ancla. intros c Hc.
    apply cols_de_In in Hc. destruct Hc as [_ [x [Hx ->]]].
    apply rellenar_In in Hx. destruct Hx as [->|[a [-> Ha]]]; [reflexivity|].
    cbn [str]. destruct (es_ancla (Py.strip a)) eqn:E; [|reflexivity].
    apply es_ancla_strip in E. now rewrite (H f a Hf Ha) in E. }
  split; [exact Hr|]. now rewrite limpiar_datos_convertir, Hr.
Qed.

Lemma sin_ancla_sin_registros_testigo :
  registros_finales [fila_sin_ancla; fila_ancha] = [] /\
  limpiar_datos [fila_sin_ancla; fila_ancha] = [].
Proof.
  apply sin_ancla_sin_registros.
  intros f c [<-|[<-|[]]] Hc; cbn in Hc;
    repeat (destruct Hc as [<-|Hc]; [reflexivity|]); destruct Hc.
Defined.

(** ** What a record says of its row *)

Lemma split_inversion (sep : ascii) (s : string) :
  forall n p ps,
    Py.split sep n s = p :: ps ->
    match ps with
    | [] => s = p
    | _ :: _ =>
        Py.has_char sep p = false /\
        exists m resto, n = S m /\ s = (p ++ String sep resto)%string /\
                        Py.split sep m resto = ps
    end.
Proof.
  induction s as [|c s IH]; intros n p ps H.
  - cbn in H. injection H as <- <-. reflexivity.
  - destruct n as [|m]; [cbn in H; injection H as <- <-; reflexivity|].
    cbn [Py.split] in H. destruct (Ascii.eqb c sep) eqn:E.
    + apply Ascii.eqb_eq in E. subst c. injection H as <- <-.
      pose proof (split_length sep m s) as Hl.
      destruct (Py.split sep m s) as [|q qs] eqn:E2; [cbn in Hl; lia|].
      split; [reflexivity|]. exists m, s. now rewrite E2.
    + pose proof (split_length sep (S m) s) as Hl.
      destruct (Py.split sep (S m) s) as [|p' ps'] eqn:E2; [cbn in Hl; lia|].
      injection H as <- <-. specialize (IH (S m) p' ps' E2).
      destruct ps' as [|q qs]; [now rewrite IH|].
      destruct IH as [Hp [m0 [resto [Hm [Hs Hps]]]]].
      split.
      * unfold Py.has_char in *. cbn [Py.any].
        now rewrite Ascii.eqb_sym, E, Hp.
      * exists m0, resto. repeat split; auto. now rewrite Hs.
Qed.

Lemma split_tres (sep : ascii) (s a b c : string) :
  Py.split sep 2 s = [a; b; c] ->
  s = (a ++ String sep (b ++ String sep c))%string /\
  Py.has_char sep a = false /\ Py.has_char sep b = false.
Proof.
  intros H. apply split_inversion in H.
  destruct H as [Ha [m [resto [Hm [Hs H]]]]].
  injection Hm as <-. apply split_inversion in H.
  destruct H as [Hb [m [resto' [Hm [Hr H]]]]].
  injection Hm as <-. rewrite split_cero in H. injection H as ->.
  subst resto. auto.
Qed.

Lemma califica_inversion (cols : list string) (idx : nat) :
  califica cols idx = true ->
  exists cell a b c,
    nth_error cols idx = Some cell /\ es_ancla cell = true /\
    valor_aceptado (nth (idx + 2) cols "") = true /\
    Py.split "-" 2 cell = [a; b; c] /\
    NIT_IPS (registro_en cols idx) = b /\
    Nombre_IPS (registro_en cols idx) = c.
Proof.
  intros Hq. unfold califica in Hq.
  destruct (nth_error cols idx) as [cell|] eqn:Hc; [|discriminate].
  destruct (nth_error cols (idx + 2)) as [pv|] eqn:Hv; [|discriminate].
  apply andb_true_iff in Hq. destruct Hq as [Hq Hp].
  apply andb_true_iff in Hq. destruct Hq as [Ha Hg].
  apply Nat.leb_le in Hp.
  pose proof (split_length "-" 2 cell) as Hl.
  unfold registro_en. rewrite (nth_error_nth cols idx "" Hc).
  rewrite (nth_error_nth cols (idx + 2) "" Hv).
  destruct (Py.split "-" 2 cell) as [|a [|b [|c [|d l]]]] eqn:E;
    cbn [length] in Hp, Hl; try lia.
  exists cell, a, b, c. cbn. repeat split; auto.
Qed.

(** X16: a record comes from an anchor cell of its row that reads
    [p-NIT_IPS-Nombre_IPS], where neither [p] nor NIT_IPS holds a "-"; its
    Fecha_Giro and Valor are the two cells after the anchor, and Valor holds
    a '$' or a digit. *)
Theorem registro_inversion (row : list (option string)) (r : registro string) :
  In r (registros_de_fila row) ->
  exists idx cell p,
    nth_error (cols_de row) idx = Some cell /\
    es_ancla cell = true /\
    cell = (p ++ "-" ++ NIT_IPS r ++ "-" ++ Nombre_IPS r)%string /\
    Py.has_char "-" p = false /\
    Py.has_char "-" (NIT_IPS r) = false /\
    nth_error (cols_de row) (idx + 1) = Some (Fecha_Giro r) /\
    nth_error (cols_de row) (idx + 2) = Some (Valor r) /\
    valor_aceptado (Valor r) = true.
Proof.
  intros Hin. apply registros_de_cols_inversion in Hin.
  destruct Hin as [idx [Hq [-> _]]].
  pose proof (califica_en_rango _ _ Hq) as Hr.
  destruct (califica_inversion _ _ Hq)
    as [cell [a [b [c [Hc [Ha [Hg [Hs [Hn Hm]]]]]]]]].
  apply split_tres in Hs. destruct Hs as [Hs [Hna Hnb]].
  exists idx, cell, a. rewrite Hn, Hm.
  repeat split; auto.
  - unfold registro_en. cbn [Fecha_Giro]. apply nth_error_nth'. lia.
  - unfold registro_en. cbn [Valor]. apply nth_error_nth'. lia.
Qed.

Lemma registro_inversion_testigo :
  exists idx cell p,
    nth_error (cols_de (map Some fila_hospital)) idx = Some cell /\
    es_ancla cell = true /\
    cell = (p ++ "-" ++ "802010614" ++ "-" ++ "Hospital San Jose")%string /\
    Py.has_char "-" p = false /\
    Py.has_char "-" "802010614" = false /\
    nth_error (cols_de (map Some fila_hospital)) (idx + 1) = Some "15/01/2025" /\
    nth_error (cols_de (map Some fila_hospital)) (idx + 2) = Some "$5.000.000" /\
    valor_aceptado "$5.000.000" = true.
Proof.
  exact (registro_inversion (map Some fila_hospital)
           (Registro "802010614" "Hospital San Jose" "15/01/2025" "$5.000.000"
                     "Anticipo" "ADRES")
           (or_introl eq_refl)).
Defined.

(** X17: when the anchor cell begins with "NIT-", the record gives the cell
    back: the cell is "NIT-", NIT_IPS, "-" and Nombre_IPS put together, and
    NIT_IPS is the text between the first two dashes. *)
Theorem ancla_recuperada
    (cols : list string) (idx : nat) (resto : string) (r : registro string) :
  nth_error cols idx = Some ("NIT-" ++ resto)%string ->
  iteracion cols idx ("NIT-" ++ resto)%string = Some r ->
  ("NIT-" ++ resto)%string = ("NIT-" ++ NIT_IPS r ++ "-" ++ Nombre_IPS r)%string /\
  Py.has_char "-" (NIT_IPS r) = false.
Proof.
  intros Hc Hit. rewrite (iteracion_califica cols idx _ Hc) in Hit.
  destruct (califica cols idx) eqn:Hq; [|discriminate].
  injection Hit as <-.
  destruct (califica_inversion _ _ Hq)
    as [cell [a [b [c [Hc' [_ [_ [Hs [Hn Hm]]]]]]]]].
  rewrite Hc in Hc'. injection Hc' as <-.
  change (String "N" (String "I" (String "T" (String "-" resto))))
    with ("NIT" ++ String "-" resto)%string in Hs.
  rewrite (split_primera "-" 1 "NIT" resto eq_refl) in Hs.
  injection Hs as <- Hs. apply split_inversion in Hs.
  destruct Hs as [Hb [m [resto' [Hm' [Hr Hs]]]]].
  injection Hm' as <-. rewrite split_cero in Hs. injection Hs as ->.
  rewrite Hn, Hm, Hr. auto.
Qed.

Lemma ancla_recuperada_testigo :
  "NIT-123-Clinica-Central" = ("NIT-" ++ "123" ++ "-" ++ "Clinica-Central")%string /\
  Py.has_char "-" "123" = false.
Proof.
  exact (ancla_recuperada cols_guiones 0 "123-Clinica-Central"
           (Registro "123" "Clinica-Central" "15/01/2025" "$10" "Anticipo" "N/A")
           eq_refl eq_refl).
Defined.

(** ** The reading of Valor *)

Lemma cifra_isdigit (c : ascii) (d : Z) : Pd.cifra c = Some d -> Py.isdigit c = true.
Proof.
  unfold Pd.cifra, Py.isdigit.
  destruct ((48 <=? Py.codigo c) && (Py.codigo c <=? 57)); [reflexivity|discriminate].
Qed.

Lemma sin_digitos_cabeza (c : ascii) (s : string) :
  Py.any Py.isdigit (String c s) = false ->
  Pd.cifra c = None /\ Py.any Py.isdigit s = false.
Proof.
  cbn [Py.any]. intros H. apply orb_false_iff in H. destruct H as [Hc Hs].
  split; [|exact Hs].
  destruct (Pd.cifra c) as [d|] eqn:E; [|reflexivity].
  apply cifra_isdigit in E. congruence.
Qed.

Lemma sin_blancos_izq_sin (p : ascii -> bool) (s : string) :
  Py.any p s = false -> Py.any p (Pd.sin_blancos_izq s) = false.
Proof.
  induction s as [|c s IH]; [trivial|]. cbn [Pd.sin_blancos_izq].
  destruct (Pd.blanco c); [|trivial].
  cbn [Py.any]. intros H. apply orb_false_iff in H. now apply IH.
Qed.

Lemma signo_sin (p : ascii -> bool) (s : string) :
  Py.any p s = false -> Py.any p (snd (Pd.signo s)) = false.
Proof.
  destruct s as [|c s]; [trivial|]. unfold Pd.signo.
  intros H. pose proof H as H'. cbn [Py.any] in H'.
  apply orb_false_iff in H'.
  destruct (Ascii.eqb c "-"); [cbn; tauto|].
  destruct (Ascii.eqb c "+"); [cbn; tauto|exact H].
Qed.

Lemma c_str_sin (p : ascii -> bool) (s : string) :
  Py.any p s = false -> Py.any p (Pd.c_str s) = false.
Proof.
  induction s as [|c s IH]; [trivial|]. cbn [Pd.c_str Py.any].
  intros H. apply orb_false_iff in H. destruct H as [Hc Hs].
  destruct (Py.codigo c =? 0); [reflexivity|].
  cbn [Py.any]. now rewrite Hc, IH.
Qed.

Lemma quitar_simbolos_sin (p : ascii -> bool) (s : string) :
  Py.any p s = false -> Py.any p (Py.quitar_simbolos s) = false.
Proof.
  induction s as [|c s IH]; [trivial|]. cbn [Py.quitar_simbolos Py.any].
  intros H. apply orb_false_iff in H. destruct H as [Hc Hs].
  destruct (Py.es_simbolo c); [now apply IH|].
  cbn [Py.any]. now rewrite Hc, IH.
Qed.

Lemma digitos_sin_digitos (p : string) (number : Pd.double) (n : nat) (e : Z) :
  Py.any Py.isdigit p = false -> Pd.digitos p number n e = (number, n, e, p).
Proof.
  destruct p as [|c p]; [reflexivity|]. intros H.
  apply sin_digitos_cabeza in H. cbn [Pd.digitos]. now rewrite (proj1 H).
Qed.

Lemma decimales_sin_digitos (p : string) (number : Pd.double) (n : nat) (e : Z) :
  Py.any Py.isdigit p = false -> Pd.decimales p number n e = (number, n, e, p).
Proof.
  destruct p as [|c p]; [reflexivity|]. intros H.
  apply sin_digitos_cabeza in H. cbn [Pd.decimales]. now rewrite (proj1 H).
Qed.

(** A text without any digit is an error for the C parser. *)
Lemma precise_xstrtod_sin_digitos (str : string) :
  Py.any Py.isdigit str = false -> Pd.error (Pd.precise_xstrtod str) = true.
Proof.
  intros H. unfold Pd.precise_xstrtod.
  pose proof (signo_sin _ _ (sin_blancos_izq_sin _ _ H)) as Hp.
  destruct (Pd.signo (Pd.sin_blancos_izq str)) as [negative p].
  cbn [snd] in Hp. rewrite (digitos_sin_digitos p _ _ _ Hp).
  destruct p as [|c p]; [reflexivity|].
  destruct (Ascii.eqb c "."); [|reflexivity].
  apply sin_digitos_cabeza in Hp.
  rewrite (decimales_sin_digitos p _ _ _ (proj2 Hp)). reflexivity.
Qed.

Lemma to_numeric_sin_digitos (val : string) :
  Py.any Py.isdigit val = false ->
  Pd.to_numeric val =
  if Pd.es_infinity (Pd.c_str val) then Some (Flotante val) else None.
Proof.
  intros H. unfold Pd.to_numeric.
  destruct (String.eqb val "") eqn:E.
  - apply String.eqb_eq in E. subst val. reflexivity.
  - unfold Pd.floatify, Pd.to_double.
    rewrite (precise_xstrtod_sin_digitos _ (c_str_sin _ _ H)).
    cbn [negb andb]. now destruct (Pd.es_infinity (Pd.c_str val)).
Qed.

(** The reading on texts of every kind: digits with white space or a sign
    around, exponents, infinities, integers too long for a float64 to hold,
    and texts that are no number. *)
Example lecturas_de_to_numeric :
  map Pd.to_numeric [" 42 "; "+7"; "-0"; "007"; "9007199254740992"] =
    [Some 42%Z; Some 7%Z; Some 0%Z; Some 7%Z; Some 9007199254740992%Z] /\
  map Pd.to_numeric ["123456789012345678"; "1e5"; "1E-3"; "1e+5"; "1e308";
                     "+INF"; "-Infinity"] =
    [Some (Flotante "123456789012345678"); Some (Flotante "1e5");
     Some (Flotante "1E-3"); Some (Flotante "1e+5"); Some (Flotante "1e308");
     Some (Flotante "+INF"); Some (Flotante "-Infinity")] /\
  map Pd.to_numeric [""; " "; "-"; "- 5"; "1 2"; "12abc"; "0x10"; "1_000";
                     "1e"; "1e+"; "2e308"; "1e309"; " inf"; "infinite"; "nan"] =
    repeat None 15.
Proof. vm_compute. repeat split. Qed.

(** X18: a Valor without any digit is no number, unless what is left of it
    once '$', ',' and '.' are removed spells an infinity ("inf" or
    "infinity", with or without a sign, in any case): then it is one.  So a
    record whose value candidate was accepted for its '$' alone is dropped
    from the final dataset, except such a one as "$inf", which is kept. *)
Theorem valor_sin_digitos (v : string) :
  Py.any Py.isdigit v = false ->
  normalizar_valor v =
  if Pd.es_infinity (Pd.c_str (Py.quitar_simbolos v))
  then Some (Flotante (Py.quitar_simbolos v))
  else None.
Proof.
  intros Hv. unfold normalizar_valor.
  apply to_numeric_sin_digitos. now apply quitar_simbolos_sin.
Qed.

Lemma valor_sin_digitos_testigo :
  (valor_aceptado "$ N/D" = true /\ normalizar_valor "$ N/D" = None) /\
  (valor_aceptado "$inf" = true /\
   normalizar_valor "$inf" = Some (Flotante "inf")) /\
  normalizar_valor "$-Infinity" = Some (Flotante "-Infinity").
Proof.
  split; [|split]; try (split; [reflexivity|]).
  - exact (valor_sin_digitos "$ N/D" eq_refl).
  - exact (valor_sin_digitos "$inf" eq_refl).
  - exact (valor_sin_digitos "$-Infinity" eq_refl).
Defined.

Lemma quitar_simbolos_app (a b : string) :
  Py.quitar_simbolos (a ++ b)%string =
  (Py.quitar_simbolos a ++ Py.quitar_simbolos b)%string.
Proof.
  induction a as [|c a IH]; [reflexivity|].
  cbn [append Py.quitar_simbolos].
  destruct (Py.es_simbolo c); [exact IH | cbn [append]; now rewrite IH].
Qed.

(** X19: a '$', a ',' or a '.' counts for nothing wherever it stands in
    Valor: the text reads as the same number with or without it.  A decimal
    point is therefore not a decimal point: "12.50" reads as 1250. *)
Theorem simbolo_sin_efecto (a b : string) (c : ascii) :
  Py.es_simbolo c = true ->
  normalizar_valor (a ++ String c b)%string = normalizar_valor (a ++ b)%string.
Proof.
  intros Hc. unfold normalizar_valor. rewrite !quitar_simbolos_app.
  cbn [Py.quitar_simbolos]. now rewrite Hc.
Qed.

Lemma simbolo_sin_efecto_testigo :
  normalizar_valor "12.50" = Some 1250%Z.
Proof.
  exact (simbolo_sin_efecto "12" "50" "." eq_refl).
Defined.

(** ** The cells that reach a record *)

Lemma rstrip_rstrip (s : string) : Py.rstrip (Py.rstrip s) = Py.rstrip s.
Proof.
  induction s as [|c s IH]; [reflexivity|]. cbn [Py.rstrip].
  destruct (Py.rstrip s) as [|d r] eqn:E.
  - destruct (Py.isspace c) eqn:Ec; [reflexivity|].
    cbn [Py.rstrip]. now rewrite Ec.
  - cbn [Py.rstrip]. cbn [Py.rstrip] in IH. now rewrite IH.
Qed.

Lemma lstrip_cabeza (s : string) :
  match Py.lstrip s with
  | EmptyString => True
  | String c _ => Py.isspace c = false
  end.
Proof.
  induction s as [|c s IH]; [exact I|]. cbn [Py.lstrip].
  destruct (Py.isspace c) eqn:E; [exact IH | exact E].
Qed.

Lemma strip_strip (s : string) : Py.strip (Py.strip s) = Py.strip s.
Proof.
  unfold Py.strip. pose proof (lstrip_cabeza s) as H.
  destruct (Py.lstrip s) as [|c t]; [reflexivity|].
  assert (Hr : exists t', Py.rstrip (String c t) = String c t').
  { cbn [Py.rstrip]. destruct (Py.rstrip t); [rewrite H|]; eauto. }
  destruct Hr as [t' Hr]. rewrite Hr.
  cbn [Py.lstrip]. rewrite H, <- Hr. apply rstrip_rstrip.
Qed.

Lemma cols_de_limpias (row : list (option string)) (c : string) :
  In c (cols_de row) -> c <> "" /\ Py.strip c = c.
Proof.
  intros H. apply cols_de_In in H. destruct H as [Hne [x [_ ->]]].
  split; [exact Hne | apply strip_strip].
Qed.

(** X20: in every record, Fecha_Giro, Valor, Concepto and Entidad are not
    empty and have no white space at either end. *)
Theorem campos_limpios (row : list (option string)) (r : registro string) :
  In r (registros_de_fila row) ->
  Forall (fun campo => campo <> "" /\ Py.strip campo = campo)
         [Fecha_Giro r; Valor r; Concepto r; Entidad r].
Proof.
  intros Hin. apply registros_de_cols_inversion in Hin.
  destruct Hin as [idx [Hq [-> _]]].
  pose proof (califica_en_rango _ _ Hq) as Hr.
  assert (Hc : forall k, k < length (cols_de row) ->
                         nth k (cols_de row) "" <> "" /\
                         Py.strip (nth k (cols_de row) "") = nth k (cols_de row) "").
  { intros k Hk. apply (cols_de_limpias row). now apply nth_In. }
  unfold registro_en. cbn [Fecha_Giro Valor Concepto Entidad].
  repeat constructor; try (apply Hc; lia).
  - destruct (idx + 3 <? length (cols_de row)) eqn:E.
    + apply Nat.ltb_lt in E. apply (proj1 (Hc _ E)).
    + discriminate.
  - destruct (idx + 3 <? length (cols_de row)) eqn:E.
    + apply Nat.ltb_lt in E. apply (proj2 (Hc _ E)).
    + reflexivity.
  - destruct (idx + 4 <? length (cols_de row)) eqn:E.
    + apply Nat.ltb_lt in E. apply (proj1 (Hc _ E)).
    + discriminate.
  - destruct (idx + 4 <? length (cols_de row)) eqn:E.
    + apply Nat.ltb_lt in E. apply (proj2 (Hc _ E)).
    + reflexivity.
Qed.

Lemma campos_limpios_testigo :
  Forall (fun campo => campo <> "" /\ Py.strip campo = campo)
         ["01/01/2025"; "$5"; "N/A"; "N/A"].
Proof.
  exact (campos_limpios
           [Some "  "; Some " NIT-1-A "; Some ""; Some " 01/01/2025"; Some "$5 "]
           (Registro "1" "A" "01/01/2025" "$5" "N/A" "N/A")
           (or_introl eq_refl)).
Defined.

(** ** Amounts made of digits *)

Lemma cifra_caracter (c : ascii) (d : Z) :
  Pd.cifra c = Some d ->
  Pd.blanco c = false /\ Ascii.eqb c "-" = false /\ Ascii.eqb c "+" = false /\
  Ascii.eqb c "." = false /\ (Py.codigo c =? 0) = false /\
  Py.es_simbolo c = false /\ (0 <= d <= 9)%Z.
Proof.
  destruct c as [[] [] [] [] [] [] [] []]; vm_compute; intros H;
    try discriminate; injection H as <-; repeat split; discriminate.
Qed.

Lemma simbolo_no_cifra (c : ascii) : Py.es_simbolo c = true -> Pd.cifra c = None.
Proof.
  destruct (Pd.cifra c) as [d|] eqn:E; [|reflexivity].
  apply cifra_caracter in E. intros H. destruct E as [_ [_ [_ [_ [_ [E _]]]]]].
  congruence.
Qed.

Lemma importe_quitar (v : string) :
  es_importe v = true -> solo_cifras (Py.quitar_simbolos v) = true.
Proof.
  induction v as [|c v IH]; [reflexivity|].
  cbn [es_importe Py.quitar_simbolos]. intros H.
  apply andb_true_iff in H. destruct H as [Hc Hv].
  destruct (Py.es_simbolo c) eqn:Es; [now apply IH|].
  cbn [orb] in Hc. cbn [solo_cifras]. now rewrite Hc, IH.
Qed.

Lemma valor_de_cifras_quitar (v : string) (acc : Z) :
  valor_de_cifras acc (Py.quitar_simbolos v) = valor_de_cifras acc v.
Proof.
  revert acc. induction v as [|c v IH]; intros acc; [reflexivity|].
  cbn [Py.quitar_simbolos valor_de_cifras].
  destruct (Py.es_simbolo c) eqn:Es.
  - now rewrite (simbolo_no_cifra c Es).
  - cbn [valor_de_cifras]. now destruct (Pd.cifra c).
Qed.

Lemma cuenta_cifras_quitar (v : string) :
  cuenta_cifras (Py.quitar_simbolos v) = cuenta_cifras v.
Proof.
  induction v as [|c v IH]; [reflexivity|].
  cbn [Py.quitar_simbolos cuenta_cifras].
  destruct (Py.es_simbolo c) eqn:Es.
  - now rewrite (simbolo_no_cifra c Es).
  - cbn [cuenta_cifras]. now rewrite IH.
Qed.

Lemma solo_cifras_cabeza (c : ascii) (t : string) :
  solo_cifras (String c t) = true ->
  (exists d, Pd.cifra c = Some d) /\ solo_cifras t = true.
Proof.
  cbn [solo_cifras]. intros H. apply andb_true_iff in H. destruct H as [Hc Ht].
  split; [|exact Ht]. destruct (Pd.cifra c) as [d|]; [now exists d|discriminate].
Qed.

Lemma solo_cifras_cuenta (t : string) :
  solo_cifras t = true -> cuenta_cifras t = String.length t.
Proof.
  induction t as [|c t IH]; [reflexivity|]. intros H.
  apply solo_cifras_cabeza in H. destruct H as [[d Hd] Ht].
  cbn [cuenta_cifras String.length]. now rewrite Hd, IH.
Qed.

Lemma solo_cifras_c_str (t : string) : solo_cifras t = true -> Pd.c_str t = t.
Proof.
  induction t as [|c t IH]; [reflexivity|]. intros H.
  apply solo_cifras_cabeza in H. destruct H as [[d Hd] Ht].
  apply cifra_caracter in Hd. destruct Hd as [_ [_ [_ [_ [Hz _]]]]].
  cbn [Pd.c_str]. now rewrite Hz, IH.
Qed.

Lemma solo_cifras_sin_blancos_der (t : string) :
  solo_cifras t = true -> Pd.sin_blancos_der t = t.
Proof.
  induction t as [|c t IH]; [reflexivity|]. intros H.
  apply solo_cifras_cabeza in H. destruct H as [[d Hd] Ht].
  apply cifra_caracter in Hd. destruct Hd as [Hb _].
  cbn [Pd.sin_blancos_der]. rewrite (IH Ht).
  destruct t; [now rewrite Hb|reflexivity].
Qed.

Lemma solo_cifras_digitos (t : string) :
  forall (number : Pd.double) (n : nat) (e : Z),
    solo_cifras t = true -> n + String.length t <= 17 ->
    exists number',
      Pd.digitos t number n e = (number', n + String.length t, e, "").
Proof.
  induction t as [|c t IH]; intros number n e H Hn.
  - exists number. cbn. now rewrite Nat.add_0_r.
  - apply solo_cifras_cabeza in H. destruct H as [[d Hd] Ht].
    cbn [String.length] in Hn. cbn [Pd.digitos]. rewrite Hd.
    unfold Pd.max_digits. rewrite (proj2 (Nat.ltb_lt n 17)) by lia.
    destruct (IH (Pd.add (Pd.mul number (Pd.of_Z 10)) (Pd.of_Z d)) (S n) e Ht)
      as [number' ->]; [lia|].
    exists number'. cbn [String.length]. now rewrite Nat.add_succ_r.
Qed.

Lemma solo_cifras_cifras (t : string) :
  forall acc, solo_cifras t = true -> t <> "" ->
              Pd.cifras acc t = Some (valor_de_cifras acc t).
Proof.
  induction t as [|c t IH]; intros acc H Hne; [congruence|].
  apply solo_cifras_cabeza in H. destruct H as [[d Hd] Ht].
  cbn [Pd.cifras valor_de_cifras]. rewrite Hd.
  destruct t as [|c' t]; [reflexivity|]. now apply IH.
Qed.

Lemma solo_cifras_cota (t : string) :
  forall acc, solo_cifras t = true -> (0 <= acc)%Z ->
    (0 <= valor_de_cifras acc t < (acc + 1) * 10 ^ Z.of_nat (String.length t))%Z.
Proof.
  induction t as [|c t IH]; intros acc H Hacc.
  - cbn. lia.
  - apply solo_cifras_cabeza in H. destruct H as [[d Hd] Ht].
    cbn [valor_de_cifras String.length]. rewrite Hd.
    apply cifra_caracter in Hd. destruct Hd as [_ [_ [_ [_ [_ [_ Hd]]]]]].
    specialize (IH (10 * acc + d)%Z Ht ltac:(lia)).
    rewrite Nat2Z.inj_succ, Z.pow_succ_r by lia.
    pose proof (Z.pow_pos_nonneg 10 (Z.of_nat (String.length t))) as Hp.
    nia.
Qed.

Lemma to_numeric_solo_cifras (t : string) :
  solo_cifras t = true -> 1 <= String.length t <= 15 ->
  Pd.to_numeric t = Some (Entero (valor_de_cifras 0 t)).
Proof.
  intros H Hlen.
  assert (Hne : t <> "") by (destruct t; [cbn in Hlen; lia|discriminate]).
  pose proof (solo_cifras_cifras t 0%Z H Hne) as Hc.
  pose proof (solo_cifras_cota t 0%Z H ltac:(lia)) as Hv.
  destruct t as [|c t]; [congruence|].
  pose proof (solo_cifras_cabeza c t H) as [[d Hd] Ht].
  pose proof (cifra_caracter c d Hd) as [Hb [Hm [Hp [Hpt [Hz _]]]]].
  assert (Hx : Pd.precise_xstrtod (String c t) = Pd.Lectura false true "").
  { unfold Pd.precise_xstrtod. cbn [Pd.sin_blancos_izq]. rewrite Hb.
    unfold Pd.signo. rewrite Hm, Hp.
    destruct (solo_cifras_digitos (String c t) (S754_zero false) 0 0%Z H)
      as [number' ->]; [lia|].
    cbn [Nat.add String.length]. reflexivity. }
  unfold Pd.to_numeric.
  replace (String.eqb (String c t) "") with false by reflexivity.
  unfold Pd.floatify, Pd.to_double. rewrite (solo_cifras_c_str _ H), Hx.
  cbn [Pd.error Pd.endptr Pd.maybe_int negb andb String.eqb].
  unfold Pd.int_de. cbn [Pd.sin_blancos_izq]. rewrite Hb.
  rewrite (solo_cifras_sin_blancos_der _ H), Hp, Hm, Hc.
  assert (Hmax : (10 ^ Z.of_nat (String.length (String c t)) <= 10 ^ 15)%Z)
    by (apply Z.pow_le_mono_r; lia).
  rewrite (proj2 (Z.leb_le _ _)); [reflexivity|].
  rewrite Z.abs_eq by lia.
  assert (H53 : (10 ^ 15 <= 2 ^ 53)%Z) by (vm_compute; discriminate).
  lia.
Qed.

(** X21: an amount written with decimal digits and the symbols '$', ','
    and '.' only, with one to fifteen digits, reads as the integer that its
    digits spell: no such record is dropped, and its Valor is that
    integer. *)
Theorem importe_entero (v : string) :
  es_importe v = true ->
  1 <= cuenta_cifras v <= 15 ->
  normalizar_valor v = Some (Entero (valor_de_cifras 0 v)).
Proof.
  intros Hv Hn. unfold normalizar_valor.
  pose proof (importe_quitar v Hv) as Ht.
  rewrite <- (valor_de_cifras_quitar v 0).
  apply to_numeric_solo_cifras; [exact Ht|].
  now rewrite <- (solo_cifras_cuenta _ Ht), cuenta_cifras_quitar.
Qed.

Lemma importe_entero_testigo :
  normalizar_valor "$12.345.678.901,50" = Some 1234567890150%Z.
Proof.
  apply (importe_entero "$12.345.678.901,50"); [reflexivity|].
  vm_compute. split; lia.
Defined.
